(** * ADES export (thor/utils/ades.py)

    A shallow embedding of [writeADESHeader] and [writeToADES], the two
    functions of [thor.utils.ades], and the properties of the ADES
    pipe-separated-value export that follow from them. *)

From stdpp Require Import base strings list gmap pretty.

Local Open Scope string_scope.
Local Open Scope list_scope.

(** ** Python values and exceptions *)

(** The line feed, Python's ["\n"]. *)
Definition LF : string := String (Ascii.ascii_of_nat 10) "".

(** Scalars that can sit in a list handed to the header builder. *)
Inductive PyAtom : Type :=
  | ANone
  | ABool (b : bool)
  | AInt (n : Z)
  | AStr (s : string).

(** What a caller can pass for [observers] and [measurers]: Python does not
    restrict the argument, the function inspects its type at run time. *)
Inductive PyVal : Type :=
  | VAtom (a : PyAtom)
  | VTuple (xs : list PyAtom)
  | VList (xs : list PyAtom).

(** [type(v) is list] *)
Definition type_is_list (v : PyVal) : bool :=
  match v with
  | VList _ => true
  | _ => false
  end.

(** ["{}".format(a)], that is [str(a)]. *)
Definition format_atom (a : PyAtom) : string :=
  match a with
  | ANone => "None"
  | ABool true => "True"
  | ABool false => "False"
  | AInt n => pretty n
  | AStr s => s
  end.

(** The exceptions the module raises itself or lets through. *)
Inductive PyExc : Type :=
  | ValueError (msg : string)
  | KeyError (key : string)
  | OSError (path : string)
  | LibraryError (msg : string).

Inductive result (A : Type) : Type :=
  | Ok (a : A)
  | Raise (e : PyExc).
Arguments Ok {A} a.
Arguments Raise {A} e.

(** Sequencing: an exception ends the computation. *)
#[global] Instance result_ret : MRet result := λ A a, Ok a.
#[global] Instance result_bind : MBind result := λ A B k r,
  match r with
  | Ok a => k a
  | Raise e => Raise e
  end.

Definition raises {A : Type} (r : result A) : Prop :=
  match r with
  | Ok _ => False
  | Raise _ => True
  end.

(** ** The header builder *)

Module Header.

(** [if type(names) is not list: raise ValueError(err)], then
    [for name in names: header += ["! name {}".format(name)]]. *)
Definition add_names (err : string) (names : PyVal) (header : list string)
  : result (list string) :=
  match names with
  | VList xs => Ok (header ++ map (λ name, "! name " +:+ format_atom name) xs)
  | _ => Raise (ValueError err)
  end.

Definition writeADESHeader
    (observatory_code submitter telescope_design
     telescope_aperture telescope_detector : string)
    (observers measurers : PyVal)
    (observatory_name submitter_institution telescope_name comment : option string)
  : result (list string) :=
  (* Start header with version number *)
  let header := ["# version=2017"] in
  (* Add observatory [required] *)
  let header := header ++ ["# observatory"] in
  let header := header ++ ["! mpcCode " +:+ observatory_code] in
  let header :=
    match observatory_name with
    | Some n => header ++ ["! name " +:+ n]
    | None => header
    end in
  (* Add submitter [required] *)
  let header := header ++ ["# submitter"] in
  let header := header ++ ["! name " +:+ submitter] in
  let header :=
    match submitter_institution with
    | Some i => header ++ ["! institution " +:+ i]
    | None => header
    end in
  (* Add telescope details [required] *)
  let header := header ++ ["# telescope"] in
  let header :=
    match telescope_name with
    | Some n => header ++ ["! name " +:+ n]
    | None => header
    end in
  let header := header ++ ["! aperture 8.4"] in
  let header := header ++ ["! design " +:+ telescope_design] in
  let header := header ++ ["! detector " +:+ "CCD"] in
  (* Add observer details *)
  let header := header ++ ["# observers"] in
  header ← add_names "observers should be a list of strings." observers header;
  (* Add measurer details *)
  let header := header ++ ["# measurers"] in
  header ← add_names "measurers should be a list of strings." measurers header;
  (* Add comment *)
  let header :=
    match comment with
    | Some c => (header ++ ["# comment"]) ++ ["! line " +:+ c]
    | None => header
    end in
  Ok (map (λ i, i +:+ LF) header).

End Header.
Export Header.

(** ** The table exporter *)

(** *** What the exporter takes from astropy, NumPy and pandas

    The values of a table are NumPy scalars; what astropy and pandas do
    with them is not part of [thor.utils.ades]. *)
Class Libs : Type := {
  (** a value of a [DataFrame] column *)
  cell : Type;
  (** a Python [str] stored in an array *)
  str_cell : string → cell;
  (** the cells [replace(np.nan, ...)] matches *)
  is_missing : cell → bool;
  (** [Time(values, format="mjd", scale=scale, precision=precision).utc.isot] *)
  Time_utc_isot : list cell → string → Z → result (list string);
  (** the fields [to_csv(..., float_format='%.16f')] writes for one column *)
  csv_values : list cell → list string;
}.

(** *** Files *)

(** Paths to contents, and the paths [open] refuses. A path stands for the
    file it names: two names of one file are not told apart from two
    files. *)
Record FileSystem : Type := {
  files : gmap string string;
  denied : gset string;
}.

(** A computation that may raise and may change files. *)
Definition IO (A : Type) : Type := FileSystem → result A * FileSystem.

#[global] Instance IO_ret : MRet IO := λ A a fs, (Ok a, fs).
#[global] Instance IO_bind : MBind IO := λ A B k m fs,
  match m fs with
  | (Ok a, fs') => k a fs'
  | (Raise e, fs') => (Raise e, fs')
  end.

Definition lift {A : Type} (r : result A) : IO A := λ fs, (r, fs).

(** [open(path, "w")]: the file is created or emptied. *)
Definition open_w (path : string) : IO unit := λ fs,
  if decide (path ∈ denied fs) then (Raise (OSError path), fs)
  else (Ok (), {| files := <[path := ""]> (files fs); denied := denied fs |}).

(** [open(path, "a")]: the file is created when it is missing. *)
Definition open_a (path : string) : IO unit := λ fs,
  if decide (path ∈ denied fs) then (Raise (OSError path), fs)
  else
    match files fs !! path with
    | Some _ => (Ok (), fs)
    | None => (Ok (), {| files := <[path := ""]> (files fs); denied := denied fs |})
    end.

(** [f.write(text)] on a file opened at [path]. *)
Definition write (path text : string) : IO unit := λ fs,
  (Ok (), {| files := alter (λ old, old +:+ text) path (files fs);
             denied := denied fs |}).

(** *** Dictionaries and frames *)

(** [d[k] = v] on a Python [dict], which keeps insertion order. *)
Fixpoint dict_set {V : Type} (k : string) (v : V) (d : list (string * V))
  : list (string * V) :=
  match d with
  | [] => [(k, v)]
  | (k', v') :: d' =>
      if String.eqb k k' then (k, v) :: d' else (k', v') :: dict_set k v d'
  end.

(** [sep.join(xs)] *)
Definition join (sep : string) (xs : list string) : string := String.concat sep xs.

Module Exporter.
Section Exporter.
Context `{L : Libs}.

(** An observation table: column name to column values. *)
Definition Table : Type := gmap string (list cell).

(** A frame under construction: the columns in insertion order. *)
Definition Frame : Type := list (string * list cell).

(** [observations[name].values] *)
Definition getitem (observations : Table) (name : string) : result (list cell) :=
  match observations !! name with
  | Some values => Ok values
  | None => Raise (KeyError name)
  end.

(** [if name in observations.columns.values: ades[name] = observations[name].values] *)
Definition copy_if_present (observations : Table) (name : string) (ades : Frame)
  : Frame :=
  match observations !! name with
  | Some values => dict_set name values ades
  | None => ades
  end.

(** [pd.DataFrame(ades)]: the arrays must have one length. *)
Definition DataFrame (ades : Frame) : result Frame :=
  match ades with
  | [] => Ok ades
  | (_, c) :: rest =>
      if forallb (λ kv, length (snd kv) =? length c)%nat rest then Ok ades
      else Raise (ValueError "All arrays must be of the same length")
  end.

Definition columns (ades : Frame) : list string := map fst ades.

Definition nrows (ades : Frame) : nat :=
  match ades with
  | [] => 0
  | (_, c) :: _ => length c
  end.

(** [ades.replace(np.nan, " ", regex=True)] *)
Definition replace_nan (ades : Frame) : Frame :=
  map (λ kv, (fst kv, map (λ v, if is_missing v then str_cell " " else v) (snd kv)))
      ades.

(** One line of [to_csv(sep="|", header=False, index=False)]. *)
Definition csv_row (fields : list (list string)) (i : nat) : string :=
  join "|" (map (λ column, default "" (column !! i)) fields) +:+ LF.

Definition csv_text (ades : Frame) : string :=
  join "" (map (csv_row (map (λ kv, csv_values (snd kv)) ades))
               (seq 0 (nrows ades))).

(** [ades.to_csv(path, sep="|", header=False, index=False, mode="a",
    float_format='%.16f')] *)
Definition to_csv (ades : Frame) (path : string) : IO unit :=
  _ ← open_a path;
  write path (csv_text ades).

Definition missing_id_message : string :=
  "At least one of permID, provID, or trkSub should" +:+ LF
  +:+ "be present in observations.".

Definition writeToADES
    (observations : Table) (file_out : string)
    (mjd_scale : string) (seconds_precision : Z)
    (observatory_code submitter telescope_design
     telescope_aperture telescope_detector : string)
    (observers measurers : PyVal) (comment : option string)
  : IO unit :=
  header ← lift (writeADESHeader
    observatory_code submitter telescope_design
    telescope_aperture telescope_detector
    observers measurers None None None comment);
  (* Format columns from observations into PSV format *)
  let ades : Frame := [] in
  let id_present := false in
  let '(ades, id_present) :=
    match observations !! "permID" with
    | Some values => (dict_set "permID" values ades, true)
    | None => (ades, id_present)
    end in
  let '(ades, id_present) :=
    match observations !! "provID" with
    | Some values => (dict_set "provID" values ades, true)
    | None => (ades, id_present)
    end in
  let '(ades, id_present) :=
    match observations !! "trkSub" with
    | Some values => (dict_set "trkSub" values ades, true)
    | None => (ades, id_present)
    end in
  if negb id_present then lift (Raise (ValueError missing_id_message))
  else
  mjd ← lift (getitem observations "mjd");
  isot ← lift (Time_utc_isot mjd mjd_scale seconds_precision);
  let ades := dict_set "obsTime" (map (λ i, str_cell (i +:+ "Z")) isot) ades in
  ra ← lift (getitem observations "ra");
  let ades := dict_set "ra" ra ades in
  dec ← lift (getitem observations "dec");
  let ades := dict_set "dec" dec ades in
  let ades := copy_if_present observations "rmsRA" ades in
  let ades := copy_if_present observations "rmsDec" ades in
  mag ← lift (getitem observations "mag");
  let ades := dict_set "mag" mag ades in
  let ades := copy_if_present observations "rmsMag" ades in
  band ← lift (getitem observations "band");
  let ades := dict_set "band" band ades in
  stn ← lift (getitem observations "stn");
  let ades := dict_set "stn" stn ades in
  mode ← lift (getitem observations "mode");
  let ades := dict_set "mode" mode ades in
  astCat ← lift (getitem observations "astCat");
  let ades := dict_set "astCat" astCat ades in
  let ades := copy_if_present observations "remarks" ades in
  (* Create dataframe with formated data entries *)
  ades ← lift (DataFrame ades);
  let col_header := join "|" (columns ades) +:+ LF in
  _ ← open_w file_out;
  _ ← write file_out (join "" header);
  _ ← write file_out col_header;
  let ades := replace_nan ades in
  to_csv ades file_out.

End Exporter.
End Exporter.
Export Exporter.

(** An instance in which every cell is text and a missing value is [None],
    for running the exporter on concrete tables. *)
Definition text_libs : Libs := {|
  cell := option string;
  str_cell := Some;
  is_missing := λ c, bool_decide (c = None);
  Time_utc_isot := λ values scale precision,
    Ok (map (λ v, default "NaT" v) values);
  csv_values := map (default "");
|}.

Definition empty_fs : FileSystem := {| files := ∅; denied := ∅ |}.

Definition demo_table : @Table text_libs :=
  list_to_map [
    ("trkSub", [Some "A1B2C3"; Some "A1B2C4"]);
    ("mjd", [Some "2020-05-31T12:00:00.000"; Some "2020-05-31T12:10:00.000"]);
    ("ra", [Some "10.0"; Some "10.1"]);
    ("dec", [Some "-5.0"; None]);
    ("mag", [Some "20.1"; Some "20.2"]);
    ("rmsMag", [None; Some "0.1"]);
    ("band", [Some "g"; Some "g"]);
    ("stn", [Some "F51"; Some "F51"]);
    ("mode", [Some "CCD"; Some "CCD"]);
    ("astCat", [Some "Gaia2"; Some "Gaia2"])
  ].

(** A table without any identification column. *)
Definition anonymous_table : @Table text_libs :=
  list_to_map [
    ("mjd", [Some "2020-05-31T12:00:00.000"]);
    ("ra", [Some "10.0"]);
    ("dec", [Some "-5.0"]);
    ("mag", [Some "20.1"]);
    ("band", [Some "g"]);
    ("stn", [Some "F51"]);
    ("mode", [Some "CCD"]);
    ("astCat", [Some "Gaia2"])
  ].

(** One export of [demo_table] into an empty file system. *)
Definition demo_run : result () * FileSystem :=
  writeToADES (L := text_libs) demo_table "out.psv" "utc" 9
    "F51" "J. Smith" "Reflector" "1.8" "CCD"
    (VList [AStr "A. B"]) (VList [AStr "C. D"]) None empty_fs.

(** ** Vocabulary of the properties *)

(** [s.startswith(pre)] *)
Fixpoint starts_with (pre s : string) : bool :=
  match pre with
  | "" => true
  | String a pre' =>
      match s with
      | "" => false
      | String b s' => Ascii.eqb a b && starts_with pre' s'
      end
  end.

(** A header line as returned: the text and its terminator. *)
Definition line (text : string) : string := text +:+ LF.

(** The five section markers every header has, in the order of the format. *)
Definition section_markers : list string :=
  map line ["# observatory"; "# submitter"; "# telescope"; "# observers"; "# measurers"].

Definition is_section_marker (l : string) : bool :=
  existsb (String.eqb l) section_markers.

(** How often a line occurs in a header. *)
Definition occurrences (l : string) (header : list string) : nat :=
  length (List.filter (String.eqb l) header).

Definition ends_with_newline (l : string) : Prop := ∃ text, l = text +:+ LF.

(** The name line of one observer or measurer. *)
Definition name_line (a : PyAtom) : string := line ("! name " +:+ format_atom a).

(** The key line of an optional argument. *)
Definition optional_line (key : string) (value : option string) : list string :=
  match value with
  | Some v => [line ("! " +:+ key +:+ " " +:+ v)]
  | None => []
  end.

(** The lines of the optional comment section. *)
Definition comment_section (comment : option string) : list string :=
  match comment with
  | Some c => [line "# comment"; line ("! line " +:+ c)]
  | None => []
  end.

(** The lines that precede the observers section. *)
Definition header_preamble
    (observatory_code submitter telescope_design : string)
    (observatory_name submitter_institution telescope_name : option string)
  : list string :=
  [line "# version=2017"; line "# observatory";
   line ("! mpcCode " +:+ observatory_code)]
  ++ optional_line "name" observatory_name
  ++ [line "# submitter"; line ("! name " +:+ submitter)]
  ++ optional_line "institution" submitter_institution
  ++ [line "# telescope"]
  ++ optional_line "name" telescope_name
  ++ [line "! aperture 8.4"; line ("! design " +:+ telescope_design);
      line "! detector CCD"].

(** A key line starts with [!]. *)
Definition is_key (l : string) : bool := starts_with "!" l.

(** A test that rejects every key line sees only the markers. *)
Definition rejects_key_lines (p : string → bool) : Prop :=
  ∀ s, p ("!" +:+ s) = false.

(** The reading of "a list-like ordered sequence of strings": a list or a
    tuple all of whose elements are [str]. *)
Definition is_str (a : PyAtom) : bool :=
  match a with
  | AStr _ => true
  | _ => false
  end.

Definition spec_is_sequence_of_strings (v : PyVal) : bool :=
  match v with
  | VList xs | VTuple xs => forallb is_str xs
  | VAtom _ => false
  end.

(** The key lines of a section: what follows the marker up to the next
    line that starts with [#]. *)
Definition starts_section (l : string) : bool := starts_with "#" l.

Fixpoint take_key_lines (header : list string) : list string :=
  match header with
  | [] => []
  | l :: rest => if starts_section l then [] else l :: take_key_lines rest
  end.

Fixpoint section_lines (marker : string) (header : list string) : list string :=
  match header with
  | [] => []
  | l :: rest =>
      if String.eqb l marker then take_key_lines rest else section_lines marker rest
  end.

(** [! key value] *)
Definition is_key_line (key l : string) : bool :=
  starts_with ("! " +:+ key +:+ " ") l.

(** The column order the format prescribes, given which columns the table
    has. *)
Definition spec_column_order (present : string → bool) : list string :=
  List.filter present ["permID"; "provID"; "trkSub"]
  ++ ["obsTime"; "ra"; "dec"]
  ++ List.filter present ["rmsRA"; "rmsDec"]
  ++ ["mag"]
  ++ List.filter present ["rmsMag"]
  ++ ["band"; "stn"; "mode"; "astCat"]
  ++ List.filter present ["remarks"].

(** [name in observations.columns.values] *)
Definition has_column `{L : Libs} (observations : Table) (name : string) : bool :=
  match observations !! name with
  | Some _ => true
  | None => false
  end.

(** The frame the format prescribes: the columns of [spec_column_order],
    each with the values of the table's column of that name, and the
    converted times under [obsTime]. *)
Definition spec_frame `{L : Libs} (observations : Table) (times : list cell) : Frame :=
  map (λ name,
         (name,
          if String.eqb name "obsTime" then times
          else default [] (observations !! name)))
      (spec_column_order (has_column observations)).

(** The column a table contributes under [name], if it has one. *)
Definition column_if_present `{L : Libs} (observations : Table) (name : string)
  : Frame :=
  match observations !! name with
  | Some values => [(name, values)]
  | None => []
  end.

(** ** The lines of a file *)

(** [s] holds no line feed. *)
Fixpoint no_LF (s : string) : bool :=
  match s with
  | "" => true
  | String c s' => negb (Ascii.eqb c (Ascii.ascii_of_nat 10)) && no_LF s'
  end.

(** [text.split("\n")] *)
Fixpoint split_lines (text : string) : list string :=
  match text with
  | "" => [""]
  | String c rest =>
      if Ascii.eqb c (Ascii.ascii_of_nat 10) then "" :: split_lines rest
      else
        match split_lines rest with
        | l :: ls => String c l :: ls
        | [] => [String c ""]
        end
  end.

(** The lines of the file at [path]. *)
Definition file_lines (fs : FileSystem) (path : string) : list string :=
  match files fs !! path with
  | Some text => split_lines text
  | None => []
  end.

(** An observatory code that carries a second line. *)
Definition two_line_code : string := "F51" +:+ LF +:+ "! name Pan-STARRS 1".

Definition two_line_run : result () * FileSystem :=
  writeToADES (L := text_libs) demo_table "out.psv" "utc" 9
    two_line_code "J. Smith" "Reflector" "1.8" "CCD"
    (VList [AStr "A. B"]) (VList [AStr "C. D"]) None empty_fs.

(** ** IEEE 754 doubles and how Python prints them *)

(** A double: not-a-number, an infinity, or [(-1)^negative * m * 2^e]. A
    zero has [m = 0]; a normal number has [2^52 <= m < 2^53]; a subnormal
    number has [m < 2^52] and [e = -1074]. *)
Inductive float64 : Type :=
  | FNaN
  | FInf (negative : bool)
  | FFinite (negative : bool) (m : N) (e : Z).

Definition is_nan (x : float64) : bool :=
  match x with
  | FNaN => true
  | _ => false
  end.


(** The decimal digit of a number below ten. *)
Definition digit_char (d : N) : Ascii.ascii :=
  Ascii.ascii_of_N (48 + d mod 10).

(** The last [width] decimal digits of [n], most significant first. *)
Fixpoint fixed_digits (width : nat) (n : N) (acc : string) : string :=
  match width with
  | O => acc
  | S w => fixed_digits w (n / 10) (String (digit_char n) acc)
  end.

(** The decimal digits of [n], without leading zeros. *)
Fixpoint decimal_go (fuel : nat) (n : N) (acc : string) : string :=
  match fuel with
  | O => acc
  | S f =>
      let acc' := String (digit_char n) acc in
      if (n / 10 =? 0)%N then acc' else decimal_go f (n / 10) acc'
  end.

Definition decimal (n : N) : string := decimal_go (S (N.size_nat n)) n "".

Definition sign_text (negative : bool) : string :=
  if negative then "-" else "".

(** [m * 2^e * 10^16] rounded to the nearest integer, ties to even. *)
Definition scaled_16 (m : N) (e : Z) : N :=
  let num := (m * 10 ^ 16)%N in
  if (0 <=? e)%Z then (num * 2 ^ Z.to_N e)%N
  else
    let den := (2 ^ Z.to_N (- e))%N in
    let q := (num / den)%N in
    let r := (num mod den)%N in
    if (den <? 2 * r)%N then (q + 1)%N
    else if (2 * r =? den)%N && N.odd q then (q + 1)%N
    else q.

(** ['%.16f' % x] *)
Definition format_16f (x : float64) : string :=
  match x with
  | FNaN => "nan"
  | FInf negative => sign_text negative +:+ "inf"
  | FFinite negative m e =>
      let n := scaled_16 m e in
      sign_text negative +:+ decimal (n / 10 ^ 16)
      +:+ "." +:+ fixed_digits 16 (n mod 10 ^ 16) ""
  end.

(** *** The shortest digits that read back as the same double *)

(** [c * 2^b] against [d * 10^q], for natural [c] and [d]. *)
Definition compare_scaled (c : N) (b : Z) (d : N) (q : Z) : comparison :=
  let lhs := (c * 2 ^ Z.to_N b * 10 ^ Z.to_N (- q))%N in
  let rhs := (d * 10 ^ Z.to_N q * 2 ^ Z.to_N (- b))%N in
  (lhs ?= rhs)%N.

(** The largest [p] from [lo] upwards, within [fuel] steps, with
    [10^p <= c * 2^b]. *)
Fixpoint decimal_exponent (fuel : nat) (c : N) (b : Z) (p : Z) : Z :=
  match fuel with
  | O => p
  | S f =>
      match compare_scaled c b 1 (p + 1) with
      | Lt => p
      | _ => decimal_exponent f c b (p + 1)
      end
  end.

(** [⌊c * 2^b / 10^q⌋] *)
Definition floor_scaled (c : N) (b : Z) (q : Z) : N :=
  ((c * 2 ^ Z.to_N b * 10 ^ Z.to_N (- q))
   / (10 ^ Z.to_N q * 2 ^ Z.to_N (- b)))%N.

(** Whether [d * 10^q] rounds to the double [m * 2^e]: it lies between the
    midpoints to the neighbouring doubles, the midpoints included when [m]
    is even. The double below is half as far away when [m = 2^52]. *)
Definition rounds_to (m : N) (e : Z) (d : N) (q : Z) : bool :=
  let low := if (m =? 2 ^ 52)%N && (-1074 <? e)%Z then (4 * m - 1)%N else (4 * m - 2)%N in
  let high := (4 * m + 2)%N in
  let above_low :=
    match compare_scaled low (e - 2) d q with
    | Lt => true
    | Eq => N.even m
    | Gt => false
    end in
  let below_high :=
    match compare_scaled high (e - 2) d q with
    | Gt => true
    | Eq => N.even m
    | Lt => false
    end in
  above_low && below_high.

(** Twice the distance is not needed: [d * 10^q] below and [(d + 1) * 10^q]
    above [x = m * 2^e]; the lower one is nearer when
    [2 x <= (2 d + 1) * 10^q], with the tie going to the even digit. *)
Definition lower_is_nearer (m : N) (e : Z) (d : N) (q : Z) : bool :=
  match compare_scaled (2 * m) e (2 * d + 1) q with
  | Lt => true
  | Eq => N.even d
  | Gt => false
  end.

(** The digits of [k] significant figures that read back as the double, if
    there are any: the nearest such. *)
Definition digits_of_length (m : N) (e : Z) (p : Z) (k : nat) : option (N * Z) :=
  let q := (p - (Z.of_nat k - 1))%Z in
  let d := floor_scaled m e q in
  let lo := rounds_to m e d q in
  let hi := rounds_to m e (d + 1) q in
  if lo && hi then Some (if lower_is_nearer m e d q then d else (d + 1)%N, q)
  else if lo then Some (d, q)
  else if hi then Some ((d + 1)%N, q)
  else None.

Fixpoint shortest_from (fuel : nat) (m : N) (e : Z) (p : Z) (k : nat) : N * Z :=
  match fuel with
  | O => (floor_scaled m e (p - 16), (p - 16)%Z)
  | S f =>
      match digits_of_length m e p k with
      | Some dq => dq
      | None => shortest_from f m e p (S k)
      end
  end.

(** Trailing zeros go to the exponent. *)
Fixpoint strip_zeros (fuel : nat) (d : N) (q : Z) : N * Z :=
  match fuel with
  | O => (d, q)
  | S f => if (d mod 10 =? 0)%N then strip_zeros f (d / 10) (q + 1) else (d, q)
  end.

(** The digits and the position of the decimal point: the double reads
    [0.digits * 10^point]. *)
Definition shortest_digits (m : N) (e : Z) : string * Z :=
  let log2 := (Z.of_nat (N.size_nat m) - 1 + e)%Z in
  let p := decimal_exponent 5 m e (log2 * 30103 / 100000 - 1) in
  let '(d, q) := shortest_from 17 m e p 1 in
  let '(d, q) := strip_zeros 20 d q in
  let digits := decimal d in
  (digits, (q + Z.of_nat (String.length digits))%Z).

Definition zeros (n : nat) : string := fixed_digits n 0 "".

Fixpoint take_chars (n : nat) (s : string) : string :=
  match n, s with
  | S n', String c s' => String c (take_chars n' s')
  | _, _ => ""
  end.

Fixpoint drop_chars (n : nat) (s : string) : string :=
  match n, s with
  | S n', String _ s' => drop_chars n' s'
  | _, _ => s
  end.

(** [repr(x)], which is also [str(x)]. *)
Definition float_repr (x : float64) : string :=
  match x with
  | FNaN => "nan"
  | FInf negative => sign_text negative +:+ "inf"
  | FFinite negative 0%N _ => sign_text negative +:+ "0.0"
  | FFinite negative m e =>
      let '(digits, point) := shortest_digits m e in
      let k := String.length digits in
      sign_text negative +:+
      (if (point <=? -4)%Z || (16 <? point)%Z then
         let exponent := (point - 1)%Z in
         take_chars 1 digits
         +:+ (if (1 <? k)%nat then "." +:+ drop_chars 1 digits else "")
         +:+ "e" +:+ (if (exponent <? 0)%Z then "-" else "+")
         +:+ (if (Z.abs exponent <? 10)%Z then "0" else "")
         +:+ decimal (Z.to_N (Z.abs exponent))
       else if (point <=? 0)%Z then
         "0." +:+ zeros (Z.to_nat (- point)) +:+ digits
       else if (Z.of_nat k <=? point)%Z then
         digits +:+ zeros (Z.to_nat point - k) +:+ ".0"
       else
         take_chars (Z.to_nat point) digits +:+ "."
         +:+ drop_chars (Z.to_nat point) digits)
  end.


(** ** What pandas writes for a column *)

(** A value of a column: a double, a [str], or [None]. *)
Inductive pycell : Type :=
  | CFloat (x : float64)
  | CStr (s : string)
  | CNone.

(** The cells [replace(np.nan, ...)] matches: NaN and [None]. *)
Definition cell_is_missing (c : pycell) : bool :=
  match c with
  | CFloat x => is_nan x
  | CStr _ => false
  | CNone => true
  end.

Definition cell_is_float (c : pycell) : bool :=
  match c with
  | CFloat _ => true
  | _ => false
  end.

(** The quote character of the csv writer. *)
Definition QUOTE : string := String (Ascii.ascii_of_nat 34) "".

Fixpoint has_special (s : string) : bool :=
  match s with
  | "" => false
  | String c s' =>
      Ascii.eqb c (Ascii.ascii_of_nat 124) (* | *)
      || Ascii.eqb c (Ascii.ascii_of_nat 34)
      || Ascii.eqb c (Ascii.ascii_of_nat 10)
      || has_special s'
  end.

Fixpoint double_quotes (s : string) : string :=
  match s with
  | "" => ""
  | String c s' =>
      if Ascii.eqb c (Ascii.ascii_of_nat 34)
      then String c (String c (double_quotes s'))
      else String c (double_quotes s')
  end.

(** A text field under [QUOTE_MINIMAL] with separator [|] and the line
    terminator of a POSIX system: quoted when it holds the separator, the
    quote character or a line feed. *)
Definition csv_field (s : string) : string :=
  if has_special s then QUOTE +:+ double_quotes s +:+ QUOTE else s.

(** A cell of a column of dtype [float64]: [float_format % x], and
    [na_rep], the empty text, for NaN. *)
Definition float_field (c : pycell) : string :=
  match c with
  | CFloat x => if is_nan x then "" else format_16f x
  | _ => ""
  end.

(** A cell of a column of dtype [object]: [float_format] is not applied,
    the csv writer takes [str] of the value. *)
Definition object_field (c : pycell) : string :=
  match c with
  | CFloat x => if is_nan x then "" else float_repr x
  | CStr s => csv_field s
  | CNone => ""
  end.

(** The fields of one column: a column of doubles alone has dtype
    [float64], any other has dtype [object]. *)
Definition pandas_csv_values (column : list pycell) : list string :=
  if forallb cell_is_float column then map float_field column
  else map object_field column.

(** ** How astropy prints a time *)

(** Calendar date and time of day, with the fraction of the second as a
    whole number of units of [10^-precision] seconds. *)
Record instant : Type := {
  year : Z;
  month : N;
  day : N;
  hour : N;
  minute : N;
  second : N;
  fracsec : N;
}.

(** ["{:0<width>d}".format(n)] *)
Definition zero_padded (width : nat) (n : N) : string :=
  zeros (width - String.length (decimal n)) +:+ decimal n.

(** The [isot] text of an instant: the fraction is there when the precision
    is positive. *)
Definition isot_format (precision : nat) (t : instant) : string :=
  (if (year t <? 0)%Z then "-" else "") +:+ decimal (Z.abs_N (year t))
  +:+ "-" +:+ zero_padded 2 (month t)
  +:+ "-" +:+ zero_padded 2 (day t)
  +:+ "T" +:+ zero_padded 2 (hour t)
  +:+ ":" +:+ zero_padded 2 (minute t)
  +:+ ":" +:+ zero_padded 2 (second t)
  +:+ match precision with
      | O => ""
      | S _ => "." +:+ zero_padded precision (fracsec t)
      end.

(** [Time(values, format="mjd", scale=scale, precision=precision).utc.isot],
    given what the conversion of the values makes of them: the UTC
    calendar fields of every value, the second rounded to the precision, or
    the exception of astropy. *)
Definition astropy_isot
    (utc_fields : list pycell → string → Z → result (list instant))
    (values : list pycell) (scale : string) (precision : Z)
  : result (list string) :=
  instants ← utc_fields values scale precision;
  Ok (map (isot_format (Z.to_nat precision)) instants).

(** pandas and astropy as modelled, over the conversion of Modified Julian
    Dates to UTC calendar fields. *)
Definition python_libs
    (utc_fields : list pycell → string → Z → result (list instant)) : Libs := {|
  cell := pycell;
  str_cell := CStr;
  is_missing := cell_is_missing;
  Time_utc_isot := astropy_isot utc_fields;
  csv_values := pandas_csv_values;
|}.

(** A conversion that puts every row at noon of 31 May 2020. *)
Definition noon_fields (values : list pycell) (scale : string) (precision : Z)
  : result (list instant) :=
  Ok (map (λ _, {| year := 2020; month := 5; day := 31; hour := 12;
                   minute := 0; second := 0; fracsec := 0 |}) values).

Definition f_0_1 : float64 := FFinite false 7205759403792794 (-56).
Definition f_10_0 : float64 := FFinite false 5629499534213120 (-49).
Definition f_10_1 : float64 := FFinite false 5685794529555251 (-49).
Definition f_m5_0 : float64 := FFinite true 5629499534213120 (-50).
Definition f_m5_5 : float64 := FFinite true 6192449487634432 (-50).
Definition f_20_1 : float64 := FFinite false 5657647031884186 (-48).
Definition f_20_2 : float64 := FFinite false 5685794529555251 (-48).
Definition f_59000_5 : float64 := FFinite false 8108966974324736 (-37).

Definition float_table : @Table (python_libs noon_fields) :=
  list_to_map [
    ("trkSub", [CStr "A1B2C3"; CStr "A1B2C4"]);
    ("mjd", [CFloat f_59000_5; CFloat f_59000_5]);
    ("ra", [CFloat f_10_0; CFloat f_10_1]);
    ("dec", [CFloat f_m5_0; CFloat f_m5_5]);
    ("mag", [CFloat f_20_1; CFloat f_20_2]);
    ("rmsMag", [CFloat FNaN; CFloat f_0_1]);
    ("band", [CStr "g"; CStr "g"]);
    ("stn", [CStr "F51"; CStr "F51"]);
    ("mode", [CStr "CCD"; CStr "CCD"]);
    ("astCat", [CStr "Gaia2"; CNone])
  ].

Definition float_run : result () * FileSystem :=
  writeToADES (L := python_libs noon_fields) float_table "out.psv" "utc" 9
    "F51" "J. Smith" "Reflector" "8.4" "CCD"
    (VList [AStr "A. B"]) (VList [AStr "C. D"]) None empty_fs.


(** A decimal digit. *)
Definition is_digit (c : Ascii.ascii) : bool :=
  (48 <=? Ascii.N_of_ascii c)%N && (Ascii.N_of_ascii c <=? 57)%N.


(** A piece of a text pattern: so many digits, or a literal text. *)
Inductive token : Type :=
  | Digits (n : nat)
  | Lit (text : string).

Fixpoint eat_digits (n : nat) (s : string) : option string :=
  match n with
  | O => Some s
  | S n' =>
      match s with
      | String c s' => if is_digit c then eat_digits n' s' else None
      | "" => None
      end
  end.

Fixpoint eat_text (text s : string) : option string :=
  match text with
  | "" => Some s
  | String a text' =>
      match s with
      | String b s' => if Ascii.eqb a b then eat_text text' s' else None
      | "" => None
      end
  end.

Definition eat (t : token) (s : string) : option string :=
  match t with
  | Digits n => eat_digits n s
  | Lit text => eat_text text s
  end.

(** The whole of [s] is the tokens of [pattern], one after the other. *)
Fixpoint matches (pattern : list token) (s : string) : bool :=
  match pattern with
  | [] => String.eqb s ""
  | t :: pattern' =>
      match eat t s with
      | Some rest => matches pattern' rest
      | None => false
      end
  end.

(** ISO 8601 extended date and time, [YYYY-MM-DDTHH:MM:SS], with a
    fraction of [precision] digits when the precision is positive. *)
Definition isot_pattern (precision : nat) : list token :=
  [Digits 4; Lit "-"; Digits 2; Lit "-"; Digits 2; Lit "T";
   Digits 2; Lit ":"; Digits 2; Lit ":"; Digits 2]
  ++ match precision with
     | O => []
     | S _ => [Lit "."; Digits precision]
     end.

(** The same, marked as UTC by the letter Z. *)
Definition obsTime_pattern (precision : nat) : list token :=
  isot_pattern precision ++ [Lit "Z"].


(** What [replace(np.nan, " ", regex=True)] puts in a cell. *)
Definition replaced (v : pycell) : pycell :=
  if cell_is_missing v then CStr " " else v.



(** A header line is a section marker or a key line. *)
Definition is_header_line (l : string) : bool :=
  starts_with "# " l || starts_with "! " l.

(** [id_present] after the three identification columns were looked for. *)
Definition has_identification `{L : Libs} (observations : Table) : bool :=
  has_column observations "permID"
  || has_column observations "provID"
  || has_column observations "trkSub".

(** The columns read without a test after the times were converted, in the
    order of the reads. *)
Definition required_after_time : list string :=
  ["ra"; "dec"; "mag"; "band"; "stn"; "mode"; "astCat"].

(** The first of them the table lacks. *)
Definition first_missing `{L : Libs} (observations : Table) : option string :=
  List.find (λ name, negb (has_column observations name)) required_after_time.

(** Every column name the exporter looks up. *)
Definition exported_columns : list string :=
  ["permID"; "provID"; "trkSub"; "mjd"; "ra"; "dec"; "rmsRA"; "rmsDec"; "mag";
   "rmsMag"; "band"; "stn"; "mode"; "astCat"; "remarks"].

(** As [text_libs], with a time conversion that refuses a missing value. *)
Definition strict_libs : Libs := {|
  cell := option string;
  str_cell := Some;
  is_missing := λ c, bool_decide (c = None);
  Time_utc_isot := λ values scale precision,
    if forallb (λ v, negb (bool_decide (v = None))) values
    then Ok (map (λ v, default "NaT" v) values)
    else Raise (LibraryError "Input values did not match the format class mjd");
  csv_values := map (default "");
|}.

(** [demo_table] with a missing time in its second row. *)
Definition untimed_table : @Table strict_libs :=
  <["mjd" := [Some "2020-05-31T12:00:00.000"; None]]> demo_table.

(** [demo_table] with a column the exporter does not know. *)
Definition wider_table : @Table text_libs :=
  <["obs_id" := [Some "o1"; Some "o2"]]> demo_table.

(** [demo_table] without its declination. *)
Definition table_without_dec : @Table text_libs := delete "dec" demo_table.

(** * Properties *)

(** ** The header builder *)

Section HeaderProperties.
Variables observatory_code submitter telescope_design : string.
Variables telescope_aperture telescope_detector : string.
Variables observatory_name submitter_institution telescope_name : option string.
Variable comment : option string.

(** With lists for observers and measurers the builder returns, and the
    header has this layout. *)
Lemma writeADESHeader_layout (observers measurers : list PyAtom) :
  writeADESHeader observatory_code submitter telescope_design
    telescope_aperture telescope_detector
    (VList observers) (VList measurers)
    observatory_name submitter_institution telescope_name comment
  = Ok (header_preamble observatory_code submitter telescope_design
          observatory_name submitter_institution telescope_name
        ++ [line "# observers"]
        ++ map name_line observers
        ++ [line "# measurers"]
        ++ map name_line measurers
        ++ comment_section comment).
Proof.
  unfold writeADESHeader, add_names, header_preamble, optional_line,
    comment_section.
  destruct observatory_name, submitter_institution, telescope_name, comment;
    cbn; rewrite ?map_app, ?map_map; cbn;
    rewrite <- ?app_assoc, ?app_nil_r; reflexivity.
Qed.

(** Every returned line carries its terminator. *)
Lemma writeADESHeader_newlines (observers measurers : PyVal) (header : list string) :
  writeADESHeader observatory_code submitter telescope_design
    telescope_aperture telescope_detector observers measurers
    observatory_name submitter_institution telescope_name comment
  = Ok header →
  Forall ends_with_newline header.
Proof.
  unfold writeADESHeader, add_names.
  destruct observers, measurers; cbn; try discriminate.
  intros [= <-]. apply List.Forall_map, Forall_forall.
  intros text _. now exists text.
Qed.

End HeaderProperties.

Lemma filter_name_lines (p : string → bool) (names : list PyAtom) :
  rejects_key_lines p → List.filter p (map name_line names) = [].
Proof.
  intros Hp. induction names as [|a names IH]; [reflexivity|].
  cbn [map List.filter]. now rewrite (Hp _ : p (name_line a) = false).
Qed.

Lemma filter_optional_line (p : string → bool) (key : string) (value : option string) :
  rejects_key_lines p → List.filter p (optional_line key value) = [].
Proof.
  intros Hp. destruct value as [v|]; [|reflexivity].
  cbn [optional_line List.filter].
  now rewrite (Hp _ : p (line ("! " +:+ key +:+ " " +:+ v)) = false).
Qed.

Lemma rejects_key_lines_eqb (marker : string) :
  rejects_key_lines (String.eqb ("#" +:+ marker)).
Proof. intros s. reflexivity. Qed.

Lemma rejects_key_lines_marker : rejects_key_lines is_section_marker.
Proof. intros s. reflexivity. Qed.

Lemma filter_markers_only (p : string → bool) (header : list string) :
  rejects_key_lines p →
  List.filter p header = List.filter p (List.filter (λ l, negb (is_key l)) header).
Proof.
  intros Hp. induction header as [|l header IH]; [reflexivity|].
  cbn [List.filter]. destruct (is_key l) eqn:Hl; cbn [negb List.filter].
  - destruct l as [|c l]; [discriminate|].
    unfold is_key in Hl. cbn [starts_with] in Hl.
    rewrite andb_true_r in Hl. apply Ascii.eqb_eq in Hl as <-.
    now rewrite (Hp l : p (String _ l) = false).
  - rewrite IH. reflexivity.
Qed.

(** The lines of a header that are not key lines. *)
Lemma layout_markers
    (observatory_code submitter telescope_design : string)
    (observatory_name submitter_institution telescope_name comment : option string)
    (observers measurers : list PyAtom) :
  List.filter (λ l, negb (is_key l))
    (header_preamble observatory_code submitter telescope_design
       observatory_name submitter_institution telescope_name
     ++ [line "# observers"] ++ map name_line observers
     ++ [line "# measurers"] ++ map name_line measurers
     ++ comment_section comment)
  = line "# version=2017" :: section_markers
    ++ match comment with Some _ => [line "# comment"] | None => [] end.
Proof.
  assert (Hkey : rejects_key_lines (λ l, negb (is_key l))) by (intros s; reflexivity).
  unfold header_preamble.
  rewrite !List.filter_app, !filter_name_lines, !filter_optional_line by exact Hkey.
  destruct comment; reflexivity.
Qed.

Lemma in_filter_eqb (l : string) (header : list string) :
  In l header ↔ In l (List.filter (String.eqb l) header).
Proof.
  rewrite List.filter_In, String.eqb_refl. tauto.
Qed.

(** C4. For lists of observers and measurers and any other metadata, the
    builder returns a header that begins with the version line, has each of
    the five section markers exactly once and in the order observatory,
    submitter, telescope, observers, measurers, has the comment marker
    exactly when a comment was passed, and ends every line with a newline. *)
Theorem header_structure
    (observatory_code submitter telescope_design
     telescope_aperture telescope_detector : string)
    (observers measurers : list PyAtom)
    (observatory_name submitter_institution telescope_name comment : option string) :
  ∃ header,
    writeADESHeader observatory_code submitter telescope_design
      telescope_aperture telescope_detector
      (VList observers) (VList measurers)
      observatory_name submitter_institution telescope_name comment
    = Ok header
    ∧ head header = Some (line "# version=2017")
    ∧ (∀ marker, In marker section_markers → occurrences marker header = 1)
    ∧ List.filter is_section_marker header = section_markers
    ∧ (In (line "# comment") header ↔ comment ≠ None)
    ∧ Forall ends_with_newline header.
Proof.
  eexists. split; [apply writeADESHeader_layout|].
  split; [reflexivity|].
  split; [|split; [|split]].
  - intros marker Hin. unfold occurrences.
    cbn in Hin.
    destruct Hin as [<-|[<-|[<-|[<-|[<-|[]]]]]];
      (rewrite filter_markers_only by apply (rejects_key_lines_eqb _));
      rewrite layout_markers; destruct comment; reflexivity.
  - rewrite filter_markers_only by apply rejects_key_lines_marker.
    rewrite layout_markers. destruct comment; reflexivity.
  - rewrite in_filter_eqb.
    rewrite filter_markers_only by apply (rejects_key_lines_eqb _).
    rewrite layout_markers. destruct comment; cbn; split; try tauto; try congruence.
    intros _. now left.
  - eapply writeADESHeader_newlines.
    apply (writeADESHeader_layout _ _ _ telescope_aperture telescope_detector).
Qed.

(** C2. The aperture line does not carry the [telescope_aperture] argument:
    called with the aperture ["1.0"], the builder returns a telescope
    section whose aperture line reads [8.4], and no line with [1.0]. *)
Theorem aperture_argument_ignored :
  ∃ header,
    writeADESHeader "F51" "J. Smith" "Reflector" "1.0" "CCD"
      (VList [AStr "J. Smith"]) (VList [AStr "J. Smith"]) None None None None
    = Ok header
    ∧ section_lines (line "# telescope") header
      = [line "! aperture 8.4"; line "! design Reflector"; line "! detector CCD"]
    ∧ ¬ In (line "! aperture 1.0") header.
Proof.
  eexists. split; [reflexivity|]. split; [reflexivity|].
  rewrite in_filter_eqb. vm_compute. tauto.
Qed.

(** C3. The detector line does not carry the [telescope_detector] argument:
    called with the detector ["CMOS"], the builder returns a telescope
    section whose detector line reads [CCD], and no line with [CMOS]. *)
Theorem detector_argument_ignored :
  ∃ header,
    writeADESHeader "F51" "J. Smith" "Reflector" "8.4" "CMOS"
      (VList [AStr "J. Smith"]) (VList [AStr "J. Smith"]) None None None None
    = Ok header
    ∧ section_lines (line "# telescope") header
      = [line "! aperture 8.4"; line "! design Reflector"; line "! detector CCD"]
    ∧ ¬ In (line "! detector CMOS") header.
Proof.
  eexists. split; [reflexivity|]. split; [reflexivity|].
  rewrite in_filter_eqb. vm_compute. tauto.
Qed.

(** Neither argument reaches the header at all. *)
Lemma writeADESHeader_ignores_aperture_and_detector
    (observatory_code submitter telescope_design : string)
    (aperture aperture' detector detector' : string)
    (observers measurers : PyVal)
    (observatory_name submitter_institution telescope_name comment : option string) :
  writeADESHeader observatory_code submitter telescope_design aperture detector
    observers measurers observatory_name submitter_institution telescope_name comment
  = writeADESHeader observatory_code submitter telescope_design aperture' detector'
      observers measurers observatory_name submitter_institution telescope_name comment.
Proof. reflexivity. Qed.

(** C5, as the code has it. The builder raises exactly when [observers] or
    [measurers] is not of type [list]; the elements are not inspected. What
    it raises is a [ValueError] that names the argument, and nothing is
    returned then. *)
Theorem header_raises_iff_not_list
    (observatory_code submitter telescope_design
     telescope_aperture telescope_detector : string)
    (observers measurers : PyVal)
    (observatory_name submitter_institution telescope_name comment : option string) :
  let r :=
    writeADESHeader observatory_code submitter telescope_design
      telescope_aperture telescope_detector observers measurers
      observatory_name submitter_institution telescope_name comment in
  (raises r ↔ type_is_list observers = false ∨ type_is_list measurers = false)
  ∧ (∀ e, r = Raise e →
       (type_is_list observers = false
        ∧ e = ValueError "observers should be a list of strings.")
       ∨ (type_is_list observers = true ∧ type_is_list measurers = false
          ∧ e = ValueError "measurers should be a list of strings.")).
Proof.
  destruct observers as [a|xs|os]; [| |destruct measurers as [a|xs|ms]];
    cbn -[writeADESHeader];
    try (split; [cbn; tauto | intros e [= <-]; auto]).
  rewrite writeADESHeader_layout. cbn. split; [|discriminate].
  split; [tauto|]. intros [|]; discriminate.
Qed.

(** A single string raises, for either argument. *)
Example single_string_raises :
  raises (writeADESHeader "F51" "J. Smith" "Reflector" "8.4" "CCD"
            (VAtom (AStr "J. Smith")) (VList [AStr "J. Smith"])
            None None None None)
  ∧ raises (writeADESHeader "F51" "J. Smith" "Reflector" "8.4" "CCD"
              (VList [AStr "J. Smith"]) (VAtom (AStr "J. Smith"))
              None None None None).
Proof. split; exact I. Qed.

(** C5, as the specification words it, fails: a list whose element is the
    integer 7 is not a sequence of strings, and the builder accepts it. *)
Lemma list_of_non_strings_accepted :
  ¬ (raises (writeADESHeader "F51" "J. Smith" "Reflector" "8.4" "CCD"
               (VList [AInt 7]) (VList [AStr "J. Smith"]) None None None None)
     ↔ (spec_is_sequence_of_strings (VList [AInt 7]) = false
        ∨ spec_is_sequence_of_strings (VList [AStr "J. Smith"]) = false)).
Proof.
  intros [_ H]. exact (H (or_introl eq_refl)).
Qed.

(** The other direction fails as well: a tuple of strings is refused. *)
Example tuple_of_strings_refused :
  spec_is_sequence_of_strings (VTuple [AStr "J. Smith"]) = true
  ∧ writeADESHeader "F51" "J. Smith" "Reflector" "8.4" "CCD"
      (VTuple [AStr "J. Smith"]) (VList [AStr "J. Smith"]) None None None None
    = Raise (ValueError "observers should be a list of strings.").
Proof. split; reflexivity. Qed.

(** C9. An empty list of observers, of measurers, or of both is accepted:
    the section marker is there and no name line follows it. *)
Theorem empty_name_lists_accepted
    (observatory_code submitter telescope_design
     telescope_aperture telescope_detector : string)
    (observatory_name submitter_institution telescope_name comment : option string) :
  let preamble :=
    header_preamble observatory_code submitter telescope_design
      observatory_name submitter_institution telescope_name in
  let build observers measurers :=
    writeADESHeader observatory_code submitter telescope_design
      telescope_aperture telescope_detector observers measurers
      observatory_name submitter_institution telescope_name comment in
  (∀ measurers,
     build (VList []) (VList measurers)
     = Ok (preamble ++ [line "# observers"; line "# measurers"]
           ++ map name_line measurers ++ comment_section comment))
  ∧ (∀ observers,
       build (VList observers) (VList [])
       = Ok (preamble ++ [line "# observers"] ++ map name_line observers
             ++ [line "# measurers"] ++ comment_section comment))
  ∧ build (VList []) (VList [])
    = Ok (preamble ++ [line "# observers"; line "# measurers"]
          ++ comment_section comment).
Proof.
  cbn zeta. repeat split; intros; apply writeADESHeader_layout.
Qed.

(** ** The sections of a header *)

Lemma take_key_lines_names (names : list PyAtom) (rest : list string) :
  take_key_lines rest = [] →
  take_key_lines (map name_line names ++ rest) = map name_line names.
Proof.
  intros Hrest. induction names as [|a names IH]; [exact Hrest|].
  cbn [map app]. change (take_key_lines (name_line a :: ?l))
    with (name_line a :: take_key_lines l). now rewrite IH.
Qed.

Lemma section_lines_skip_names (marker : string) (names : list PyAtom) (rest : list string) :
  section_lines ("#" +:+ marker) (map name_line names ++ rest)
  = section_lines ("#" +:+ marker) rest.
Proof.
  induction names as [|a names IH]; [reflexivity|]. exact IH.
Qed.

Section HeaderSections.
Variables observatory_code submitter telescope_design : string.
Variables telescope_aperture telescope_detector : string.
Variables observers measurers : list PyAtom.
Variables observatory_name submitter_institution telescope_name : option string.
Variable comment : option string.

(** X1. The name of the observatory, the institution and the name of the
    telescope each give one key line in their section when passed and none
    when left out; the required lines are always there. *)
Theorem optional_lines_iff_supplied :
  ∃ header,
    writeADESHeader observatory_code submitter telescope_design
      telescope_aperture telescope_detector (VList observers) (VList measurers)
      observatory_name submitter_institution telescope_name comment = Ok header
    ∧ section_lines (line "# observatory") header
      = line ("! mpcCode " +:+ observatory_code) :: optional_line "name" observatory_name
    ∧ section_lines (line "# submitter") header
      = line ("! name " +:+ submitter)
        :: optional_line "institution" submitter_institution
    ∧ section_lines (line "# telescope") header
      = optional_line "name" telescope_name
        ++ [line "! aperture 8.4"; line ("! design " +:+ telescope_design);
            line "! detector CCD"].
Proof.
  eexists. split; [apply writeADESHeader_layout|].
  unfold header_preamble.
  destruct observatory_name, submitter_institution, telescope_name;
    repeat split.
Qed.

(** X2. The observers section and the measurers section hold one name
    line per element of their list, in the order of the list, and nothing
    else. *)
Theorem name_sections_follow_lists :
  ∃ header,
    writeADESHeader observatory_code submitter telescope_design
      telescope_aperture telescope_detector (VList observers) (VList measurers)
      observatory_name submitter_institution telescope_name comment = Ok header
    ∧ section_lines (line "# observers") header = map name_line observers
    ∧ section_lines (line "# measurers") header = map name_line measurers.
Proof.
  eexists. split; [apply writeADESHeader_layout|].
  unfold header_preamble.
  split.
  - destruct observatory_name, submitter_institution, telescope_name;
      cbn [optional_line app];
      (change (section_lines (line "# observers") ?h)
         with (take_key_lines (map name_line observers
                 ++ [line "# measurers"] ++ map name_line measurers
                 ++ comment_section comment)) at 1);
      now apply take_key_lines_names.
  - destruct observatory_name, submitter_institution, telescope_name;
      cbn [optional_line app];
      (change (section_lines (line "# measurers") ?h)
         with (section_lines (line "# measurers") (map name_line observers
                 ++ [line "# measurers"] ++ map name_line measurers
                 ++ comment_section comment)) at 1);
      (etransitivity;
         [exact (section_lines_skip_names (" measurers" +:+ LF) observers _)|]);
      cbn [app];
      (change (section_lines (line "# measurers") ?h)
         with (take_key_lines (map name_line measurers ++ comment_section comment)));
      apply take_key_lines_names; now destruct comment.
Qed.

(** X3. With a comment the header has the comment marker once, and the
    comment section is one line that carries the comment as passed; without
    a comment the header has no comment marker and no comment section. *)
Theorem comment_section_verbatim :
  ∃ header,
    writeADESHeader observatory_code submitter telescope_design
      telescope_aperture telescope_detector (VList observers) (VList measurers)
      observatory_name submitter_institution telescope_name comment = Ok header
    ∧ occurrences (line "# comment") header
      = match comment with
        | Some _ => 1
        | None => 0
        end
    ∧ section_lines (line "# comment") header
      = match comment with
        | Some c => [line ("! line " +:+ c)]
        | None => []
        end.
Proof.
  eexists. split; [apply writeADESHeader_layout|]. split.
  { unfold occurrences.
    rewrite filter_markers_only by apply (rejects_key_lines_eqb _).
    rewrite layout_markers. now destruct comment. }
  unfold header_preamble.
  destruct observatory_name, submitter_institution, telescope_name;
    cbn [optional_line app];
    (change (section_lines (line "# comment") ?h)
       with (section_lines (line "# comment") (map name_line observers
               ++ [line "# measurers"] ++ map name_line measurers
               ++ comment_section comment)) at 1);
    (etransitivity;
       [exact (section_lines_skip_names (" comment" +:+ LF) observers _)|]);
    cbn [app];
    (change (section_lines (line "# comment") ?h)
       with (section_lines (line "# comment")
               (map name_line measurers ++ comment_section comment)));
    (etransitivity;
       [exact (section_lines_skip_names (" comment" +:+ LF) measurers _)|]);
    now destruct comment.
Qed.

(** X4. Every line of a header starts with "# " (a marker) or "! " (a key
    line). *)
Theorem header_lines_are_markers_or_keys :
  ∃ header,
    writeADESHeader observatory_code submitter telescope_design
      telescope_aperture telescope_detector (VList observers) (VList measurers)
      observatory_name submitter_institution telescope_name comment = Ok header
    ∧ Forall (λ l, is_header_line l = true) header.
Proof.
  eexists. split; [apply writeADESHeader_layout|].
  assert (Hopt : ∀ key v, Forall (λ l, is_header_line l = true) (optional_line key v))
    by (intros key [v|]; repeat constructor).
  assert (Hnames : ∀ names, Forall (λ l, is_header_line l = true) (map name_line names))
    by (intros names; apply List.Forall_map, Forall_forall; reflexivity).
  unfold header_preamble.
  repeat (progress (rewrite <- ?app_assoc; cbn [app])).
  do 3 (apply List.Forall_cons; [reflexivity|]).
  apply Forall_app_2; [apply Hopt|].
  do 2 (apply List.Forall_cons; [reflexivity|]).
  apply Forall_app_2; [apply Hopt|].
  apply List.Forall_cons; [reflexivity|].
  apply Forall_app_2; [apply Hopt|].
  do 4 (apply List.Forall_cons; [reflexivity|]).
  apply Forall_app_2; [apply Hnames|].
  apply List.Forall_cons; [reflexivity|].
  apply Forall_app_2; [apply Hnames|].
  destruct comment; repeat constructor.
Qed.

End HeaderSections.

(** ** The table exporter *)

Lemma append_assoc (a b c : string) : (a +:+ b) +:+ c = a +:+ b +:+ c.
Proof.
  induction a as [|x a IH]; [reflexivity|].
  change (String x ((a +:+ b) +:+ c) = String x (a +:+ b +:+ c)).
  now rewrite IH.
Qed.

Section ExporterProperties.
Context `{L : Libs}.

Lemma bind_lift {A B : Type} (r : result A) (k : A → IO B) (fs : FileSystem) :
  (lift r ≫= k) fs
  = match r with
    | Ok a => k a fs
    | Raise e => (Raise e, fs)
    end.
Proof. destruct r; reflexivity. Qed.

Lemma DataFrame_Ok (ades ades' : Frame) : DataFrame ades = Ok ades' → ades' = ades.
Proof.
  destruct ades as [|[k c] rest]; cbn; [congruence|].
  destruct (forallb _ rest); congruence.
Qed.

(** Opening, the two writes and the appended rows leave one file. *)
Lemma write_file_run (p header col_header : string) (ades : Frame) (fs : FileSystem) :
  (_ ← open_w p; _ ← write p header; _ ← write p col_header; to_csv ades p) fs
  = if decide (p ∈ denied fs) then (Raise (OSError p), fs)
    else (Ok (),
          {| files := <[p := header +:+ col_header +:+ csv_text ades]> (files fs);
             denied := denied fs |}).
Proof.
  unfold mbind, IO_bind, to_csv, open_w, open_a, write, mbind, IO_bind. cbn.
  destruct (decide (p ∈ denied fs)) as [Hd|Hd]; [reflexivity|]. cbn.
  rewrite decide_False by assumption.
  rewrite !alter_insert_eq, lookup_insert_eq. cbn. rewrite alter_insert_eq.
  now rewrite !append_assoc.
Qed.

Lemma spec_frame_unfold (observations : Table) (times : list cell) :
  spec_frame observations times
  = column_if_present observations "permID"
    ++ column_if_present observations "provID"
    ++ column_if_present observations "trkSub"
    ++ [("obsTime", times);
        ("ra", default [] (observations !! "ra"));
        ("dec", default [] (observations !! "dec"))]
    ++ column_if_present observations "rmsRA"
    ++ column_if_present observations "rmsDec"
    ++ [("mag", default [] (observations !! "mag"))]
    ++ column_if_present observations "rmsMag"
    ++ [("band", default [] (observations !! "band"));
        ("stn", default [] (observations !! "stn"));
        ("mode", default [] (observations !! "mode"));
        ("astCat", default [] (observations !! "astCat"))]
    ++ column_if_present observations "remarks".
Proof.
  assert (Hcol : ∀ name, String.eqb name "obsTime" = false →
    map (λ name, (name, if String.eqb name "obsTime" then times
                        else default [] (observations !! name)))
        (List.filter (has_column observations) [name])
    = column_if_present observations name).
  { intros name Hname. unfold has_column, column_if_present. cbn [List.filter].
    destruct (observations !! name) as [values|] eqn:Hvalues; [|reflexivity].
    cbn [map]. now rewrite Hname, Hvalues. }
  unfold spec_frame, spec_column_order.
  change ["permID"; "provID"; "trkSub"] with (["permID"] ++ ["provID"] ++ ["trkSub"]).
  change ["rmsRA"; "rmsDec"] with (["rmsRA"] ++ ["rmsDec"]).
  rewrite !List.filter_app, !map_app, !Hcol by reflexivity.
  rewrite <- !app_assoc. reflexivity.
Qed.

(** What a run that returns has done. *)
Lemma writeToADES_success
    (observations : Table) (file_out mjd_scale : string) (seconds_precision : Z)
    (observatory_code submitter telescope_design
     telescope_aperture telescope_detector : string)
    (observers measurers : PyVal) (comment : option string)
    (fs fs' : FileSystem) :
  writeToADES observations file_out mjd_scale seconds_precision
    observatory_code submitter telescope_design telescope_aperture
    telescope_detector observers measurers comment fs = (Ok (), fs') →
  ∃ header mjd isot,
    writeADESHeader observatory_code submitter telescope_design
      telescope_aperture telescope_detector observers measurers
      None None None comment = Ok header
    ∧ observations !! "mjd" = Some mjd
    ∧ Time_utc_isot mjd mjd_scale seconds_precision = Ok isot
    ∧ (file_out ∉ denied fs)
    ∧ (let ades := spec_frame observations (map (λ i, str_cell (i +:+ "Z")) isot) in
       DataFrame ades = Ok ades
       ∧ fs' = {| files := <[file_out := join "" header
                                         +:+ (join "|" (columns ades) +:+ LF)
                                         +:+ csv_text (replace_nan ades)]> (files fs);
                  denied := denied fs |}).
Proof.
  intros Hrun. unfold writeToADES in Hrun.
  rewrite bind_lift in Hrun.
  destruct (writeADESHeader _ _ _ _ _ _ _ _ _ _ _) as [header|e] eqn:Hheader;
    [|discriminate].
  unfold copy_if_present, getitem in Hrun.
  cbn zeta. setoid_rewrite spec_frame_unfold. unfold column_if_present.
  destruct (observations !! "permID") as [permID|] eqn:HpermID;
  destruct (observations !! "provID") as [provID|] eqn:HprovID;
  destruct (observations !! "trkSub") as [trkSub|] eqn:HtrkSub;
  cbn [negb] in Hrun; try discriminate.
  all: rewrite bind_lift in Hrun;
    destruct (observations !! "mjd") as [mjd|] eqn:Hmjd; [|discriminate].
  all: rewrite bind_lift in Hrun;
    destruct (Time_utc_isot _ _ _) as [isot|e] eqn:Hisot; [|discriminate].
  all: rewrite bind_lift in Hrun;
    destruct (observations !! "ra") as [ra|] eqn:Hra; [|discriminate].
  all: rewrite bind_lift in Hrun;
    destruct (observations !! "dec") as [dec|] eqn:Hdec; [|discriminate].
  all: rewrite bind_lift in Hrun;
    destruct (observations !! "mag") as [mag|] eqn:Hmag; [|discriminate].
  all: rewrite bind_lift in Hrun;
    destruct (observations !! "band") as [band|] eqn:Hband; [|discriminate].
  all: rewrite bind_lift in Hrun;
    destruct (observations !! "stn") as [stn|] eqn:Hstn; [|discriminate].
  all: rewrite bind_lift in Hrun;
    destruct (observations !! "mode") as [mode|] eqn:Hmode; [|discriminate].
  all: rewrite bind_lift in Hrun;
    destruct (observations !! "astCat") as [astCat|] eqn:HastCat; [|discriminate].
  all: destruct (observations !! "rmsRA") as [rmsRA|] eqn:HrmsRA;
    destruct (observations !! "rmsDec") as [rmsDec|] eqn:HrmsDec;
    destruct (observations !! "rmsMag") as [rmsMag|] eqn:HrmsMag;
    destruct (observations !! "remarks") as [remarks|] eqn:Hremarks.
  all: lazy [dict_set String.eqb Ascii.eqb Bool.eqb andb] in Hrun.
  all: rewrite bind_lift in Hrun.
  all: destruct (DataFrame _) as [ades|e] eqn:HDF in Hrun; [|discriminate].
  all: pose proof (DataFrame_Ok _ _ HDF) as ->.
  all: rewrite write_file_run in Hrun.
  all: destruct (decide (file_out ∈ denied fs)) as [Hd|Hd]; [discriminate|].
  all: injection Hrun as <-.
  all: exists header, mjd, isot.
  all: repeat split; first [reflexivity | assumption].
Qed.

Lemma columns_spec_frame (observations : Table) (times : list cell) :
  columns (spec_frame observations times)
  = spec_column_order (has_column observations).
Proof.
  unfold columns, spec_frame. rewrite map_map. cbn [fst]. apply map_id.
Qed.

(** A frame that [pd.DataFrame] accepts has columns of one length. *)
Lemma DataFrame_lengths (ades : Frame) (name : string) (values : list cell) :
  DataFrame ades = Ok ades → In (name, values) ades → length values = nrows ades.
Proof.
  destruct ades as [|[k c] rest]; [intros _ []|].
  cbn [DataFrame nrows].
  destruct (forallb _ rest) eqn:Hall; [|discriminate].
  intros _ [[= _ ->]|Hin]; [reflexivity|].
  rewrite forallb_forall in Hall. specialize (Hall _ Hin).
  now apply Nat.eqb_eq in Hall.
Qed.

Lemma nrows_spec_frame (observations : Table) (times : list cell) :
  DataFrame (spec_frame observations times) = Ok (spec_frame observations times) →
  nrows (spec_frame observations times) = length times.
Proof.
  intros HDF. symmetry. apply (DataFrame_lengths _ "obsTime" _ HDF).
  rewrite spec_frame_unfold, !in_app_iff. do 3 right. left. now left.
Qed.

(** The rows of a frame built by name, written out field by field. *)
Lemma csv_text_by_name (names : list string) (values : string → list cell) (n : nat) :
  nrows (map (λ name, (name, values name)) names) = n →
  csv_text (replace_nan (map (λ name, (name, values name)) names))
  = join ""
      (map (λ i,
              join "|"
                (map (λ name,
                        default ""
                          (csv_values
                             (map (λ v, if is_missing v then str_cell " " else v)
                                  (values name))
                           !! i))
                     names)
              +:+ LF)
           (seq 0 n)).
Proof.
  intros <-. unfold csv_text, csv_row, replace_nan.
  rewrite !map_map. cbn [fst snd].
  replace (nrows (map _ names)) with (nrows (map (λ name, (name, values name)) names)).
  - f_equal. apply map_ext. intros i. now rewrite map_map.
  - destruct names; cbn; [reflexivity|]. now rewrite length_map.
Qed.

(** C1. When the table has none of the columns permID, provID and trkSub,
    the exporter raises a [ValueError] and leaves every file as it was;
    when the header metadata is accepted (observers and measurers are
    lists), the error is the one about the missing identification. *)
Theorem missing_identification_raises
    (observations : Table) (file_out mjd_scale : string) (seconds_precision : Z)
    (observatory_code submitter telescope_design
     telescope_aperture telescope_detector : string)
    (observers measurers : PyVal) (comment : option string)
    (fs : FileSystem) :
  observations !! "permID" = None →
  observations !! "provID" = None →
  observations !! "trkSub" = None →
  let run :=
    writeToADES observations file_out mjd_scale seconds_precision
      observatory_code submitter telescope_design telescope_aperture
      telescope_detector observers measurers comment fs in
  (∃ msg, run = (Raise (ValueError msg), fs))
  ∧ (type_is_list observers = true → type_is_list measurers = true →
     run = (Raise (ValueError missing_id_message), fs)).
Proof.
  intros HpermID HprovID HtrkSub run. subst run. unfold writeToADES.
  rewrite bind_lift, HpermID, HprovID, HtrkSub.
  destruct observers as [a|xs|os]; [| |destruct measurers as [a|xs|ms]];
    try (split; [eexists; reflexivity | discriminate]).
  rewrite writeADESHeader_layout. cbn [negb].
  split; [eexists; reflexivity | reflexivity].
Qed.

(** C6. When the exporter returns, the file holds the header, then the
    column names in the fixed order (the identification columns the table
    has, obsTime, ra, dec, rmsRA and rmsDec if the table has them, mag,
    rmsMag if there, band, stn, mode, astCat, remarks if there) joined by
    [|], then one line per row whose fields follow that same order. A
    column the table lacks has no name and no field. *)
Theorem output_column_order
    (observations : Table) (file_out mjd_scale : string) (seconds_precision : Z)
    (observatory_code submitter telescope_design
     telescope_aperture telescope_detector : string)
    (observers measurers : PyVal) (comment : option string)
    (fs fs' : FileSystem) :
  writeToADES observations file_out mjd_scale seconds_precision
    observatory_code submitter telescope_design telescope_aperture
    telescope_detector observers measurers comment fs = (Ok (), fs') →
  ∃ header mjd isot,
    observations !! "mjd" = Some mjd
    ∧ Time_utc_isot mjd mjd_scale seconds_precision = Ok isot
    ∧ (let names := spec_column_order (has_column observations) in
       let values name :=
         if String.eqb name "obsTime" then map (λ i, str_cell (i +:+ "Z")) isot
         else default [] (observations !! name) in
       let field name i :=
         default ""
           (csv_values (map (λ v, if is_missing v then str_cell " " else v)
                            (values name))
            !! i) in
       files fs' !! file_out
       = Some (join "" header
               +:+ (join "|" names +:+ LF)
               +:+ join ""
                     (map (λ i, join "|" (map (λ name, field name i) names) +:+ LF)
                          (seq 0 (length isot))))).
Proof.
  intros Hrun.
  destruct (writeToADES_success _ _ _ _ _ _ _ _ _ _ _ _ _ _ Hrun)
    as (header & mjd & isot & _ & Hmjd & Hisot & _ & HDF & ->).
  exists header, mjd, isot. split; [exact Hmjd|]. split; [exact Hisot|].
  cbn zeta. cbn [files]. rewrite lookup_insert_eq, columns_spec_frame.
  do 3 f_equal.
  apply nrows_spec_frame in HDF. rewrite length_map in HDF.
  now apply csv_text_by_name.
Qed.

(** The header the exporter writes, as the list the builder returns: it is
    built without observatory name, institution and telescope name, so its
    observatory section is the mpcCode line alone, its submitter section
    the name line alone, and its telescope section the aperture, design and
    detector lines. *)
Theorem exporter_omits_optional_names
    (observations : Table) (file_out mjd_scale : string) (seconds_precision : Z)
    (observatory_code submitter telescope_design
     telescope_aperture telescope_detector : string)
    (observers measurers : PyVal) (comment : option string)
    (fs fs' : FileSystem) :
  writeToADES observations file_out mjd_scale seconds_precision
    observatory_code submitter telescope_design telescope_aperture
    telescope_detector observers measurers comment fs = (Ok (), fs') →
  ∃ header times,
    writeADESHeader observatory_code submitter telescope_design
      telescope_aperture telescope_detector observers measurers
      None None None comment = Ok header
    ∧ files fs' !! file_out
      = Some (join "" header
              +:+ (join "|" (spec_column_order (has_column observations)) +:+ LF)
              +:+ csv_text (replace_nan (spec_frame observations times)))
    ∧ section_lines (line "# observatory") header
      = [line ("! mpcCode " +:+ observatory_code)]
    ∧ section_lines (line "# submitter") header
      = [line ("! name " +:+ submitter)]
    ∧ section_lines (line "# telescope") header
      = [line "! aperture 8.4"; line ("! design " +:+ telescope_design);
         line "! detector CCD"]
    ∧ Forall (λ l, is_key_line "name" l = false)
        (section_lines (line "# observatory") header)
    ∧ Forall (λ l, is_key_line "institution" l = false)
        (section_lines (line "# submitter") header)
    ∧ Forall (λ l, is_key_line "name" l = false)
        (section_lines (line "# telescope") header).
Proof.
  intros Hrun.
  destruct (writeToADES_success _ _ _ _ _ _ _ _ _ _ _ _ _ _ Hrun)
    as (header & mjd & isot & Hheader & _ & _ & _ & _ & ->).
  exists header, (map (λ i, str_cell (i +:+ "Z")) isot).
  split; [exact Hheader|].
  split; [cbn [files]; now rewrite lookup_insert_eq, columns_spec_frame|].
  destruct observers as [a|xs|os]; try discriminate.
  destruct measurers as [a|xs|ms]; try discriminate.
  rewrite writeADESHeader_layout in Hheader. injection Hheader as <-.
  repeat split; repeat constructor.
Qed.

End ExporterProperties.

(** ** The order of the exporter's checks and what a run leaves *)

Section ExporterRun.
Context `{L : Libs}.

(** The outcome of a run, decided in the order of the source. *)
Lemma writeToADES_run
    (observations : Table) (file_out mjd_scale : string) (seconds_precision : Z)
    (observatory_code submitter telescope_design
     telescope_aperture telescope_detector : string)
    (observers measurers : PyVal) (comment : option string)
    (fs : FileSystem) :
  writeToADES observations file_out mjd_scale seconds_precision
    observatory_code submitter telescope_design telescope_aperture
    telescope_detector observers measurers comment fs
  = match writeADESHeader observatory_code submitter telescope_design
            telescope_aperture telescope_detector observers measurers
            None None None comment with
    | Raise e => (Raise e, fs)
    | Ok header =>
      if negb (has_identification observations)
      then (Raise (ValueError missing_id_message), fs)
      else
        match observations !! "mjd" with
        | None => (Raise (KeyError "mjd"), fs)
        | Some mjd =>
          match Time_utc_isot mjd mjd_scale seconds_precision with
          | Raise e => (Raise e, fs)
          | Ok isot =>
            match first_missing observations with
            | Some name => (Raise (KeyError name), fs)
            | None =>
              let ades :=
                spec_frame observations (map (λ i, str_cell (i +:+ "Z")) isot) in
              match DataFrame ades with
              | Raise e => (Raise e, fs)
              | Ok _ =>
                if decide (file_out ∈ denied fs)
                then (Raise (OSError file_out), fs)
                else (Ok (),
                      {| files :=
                           <[file_out := join "" header
                                         +:+ (join "|" (columns ades) +:+ LF)
                                         +:+ csv_text (replace_nan ades)]>
                             (files fs);
                         denied := denied fs |})
              end
            end
          end
        end
    end.
Proof.
  unfold writeToADES. rewrite bind_lift.
  destruct (writeADESHeader _ _ _ _ _ _ _ _ _ _ _) as [header|e]; [|reflexivity].
  unfold copy_if_present, getitem, has_identification, first_missing,
    required_after_time, has_column.
  destruct (observations !! "permID") as [permID|] eqn:HpermID;
  destruct (observations !! "provID") as [provID|] eqn:HprovID;
  destruct (observations !! "trkSub") as [trkSub|] eqn:HtrkSub;
  cbn [negb orb]; try reflexivity.
  all: rewrite bind_lift;
    destruct (observations !! "mjd") as [mjd|] eqn:Hmjd; [|reflexivity].
  all: rewrite bind_lift;
    destruct (Time_utc_isot _ _ _) as [isot|e] eqn:Hisot; [|reflexivity].
  all: cbn zeta; rewrite spec_frame_unfold; unfold column_if_present;
    rewrite HpermID, HprovID, HtrkSub; cbn [List.find].
  all: rewrite bind_lift;
    destruct (observations !! "ra") as [ra|] eqn:Hra; cbn [negb]; [|reflexivity].
  all: rewrite bind_lift;
    destruct (observations !! "dec") as [dec|] eqn:Hdec; cbn [negb]; [|reflexivity].
  all: rewrite bind_lift;
    destruct (observations !! "mag") as [mag|] eqn:Hmag; cbn [negb]; [|reflexivity].
  all: rewrite bind_lift;
    destruct (observations !! "band") as [band|] eqn:Hband; cbn [negb]; [|reflexivity].
  all: rewrite bind_lift;
    destruct (observations !! "stn") as [stn|] eqn:Hstn; cbn [negb]; [|reflexivity].
  all: rewrite bind_lift;
    destruct (observations !! "mode") as [mode|] eqn:Hmode; cbn [negb]; [|reflexivity].
  all: rewrite bind_lift;
    destruct (observations !! "astCat") as [astCat|] eqn:HastCat; cbn [negb]; [|reflexivity].
  all: destruct (observations !! "rmsRA") as [rmsRA|];
    destruct (observations !! "rmsDec") as [rmsDec|];
    destruct (observations !! "rmsMag") as [rmsMag|];
    destruct (observations !! "remarks") as [remarks|].
  all: lazy [dict_set String.eqb Ascii.eqb Bool.eqb andb]; cbn [app default].
  all: rewrite bind_lift.
  all: destruct (DataFrame _) as [ades|e] eqn:HDF; [|reflexivity].
  all: pose proof (DataFrame_Ok _ _ HDF) as ->.
  all: rewrite write_file_run; reflexivity.
Qed.


(** What a run that returns was given, and what it leaves. *)
Lemma writeToADES_returns
    (observations : Table) (file_out mjd_scale : string) (seconds_precision : Z)
    (observatory_code submitter telescope_design
     telescope_aperture telescope_detector : string)
    (observers measurers : PyVal) (comment : option string)
    (fs fs' : FileSystem) :
  writeToADES observations file_out mjd_scale seconds_precision
    observatory_code submitter telescope_design telescope_aperture
    telescope_detector observers measurers comment fs = (Ok (), fs') →
  ∃ header mjd isot,
    writeADESHeader observatory_code submitter telescope_design
      telescope_aperture telescope_detector observers measurers
      None None None comment = Ok header
    ∧ has_identification observations = true
    ∧ observations !! "mjd" = Some mjd
    ∧ Time_utc_isot mjd mjd_scale seconds_precision = Ok isot
    ∧ first_missing observations = None
    ∧ (file_out ∉ denied fs)
    ∧ (let ades := spec_frame observations (map (λ i, str_cell (i +:+ "Z")) isot) in
       DataFrame ades = Ok ades
       ∧ fs' = {| files := <[file_out := join "" header
                                         +:+ (join "|" (columns ades) +:+ LF)
                                         +:+ csv_text (replace_nan ades)]> (files fs);
                  denied := denied fs |}).
Proof.
  rewrite writeToADES_run.
  destruct (writeADESHeader _ _ _ _ _ _ _ _ _ _ _) as [header|e] eqn:Hheader;
    [|discriminate].
  destruct (has_identification observations) eqn:Hid; [|discriminate]. cbn [negb].
  destruct (observations !! "mjd") as [mjd|] eqn:Hmjd; [|discriminate].
  destruct (Time_utc_isot _ _ _) as [isot|e] eqn:Htime; [|discriminate].
  destruct (first_missing observations) eqn:Hnone; [discriminate|]. cbn zeta.
  destruct (DataFrame _) as [ades|e] eqn:HDF; [|discriminate].
  apply DataFrame_Ok in HDF as HDF'. subst ades.
  destruct (decide (file_out ∈ denied fs)); [discriminate|].
  intros [= <-]. exists header, mjd, isot. repeat split; try assumption.
Qed.

(** X5. An error of the header builder is the error of the exporter,
    whatever the table holds, and no file is touched. *)
Theorem header_error_precedes_table
    (observations : Table) (file_out mjd_scale : string) (seconds_precision : Z)
    (observatory_code submitter telescope_design
     telescope_aperture telescope_detector : string)
    (observers measurers : PyVal) (comment : option string)
    (fs : FileSystem) (e : PyExc) :
  writeADESHeader observatory_code submitter telescope_design
    telescope_aperture telescope_detector observers measurers
    None None None comment = Raise e →
  writeToADES observations file_out mjd_scale seconds_precision
    observatory_code submitter telescope_design telescope_aperture
    telescope_detector observers measurers comment fs = (Raise e, fs).
Proof. intros Hheader. now rewrite writeToADES_run, Hheader. Qed.

(** X6. With accepted metadata and an identification column, a table
    without mjd raises [KeyError] for mjd; a table whose times convert and
    that lacks one of ra, dec, mag, band, stn, mode, astCat raises [KeyError]
    for the first of these it lacks. No file is touched. *)
Theorem missing_column_raises_KeyError
    (observations : Table) (file_out mjd_scale : string) (seconds_precision : Z)
    (observatory_code submitter telescope_design
     telescope_aperture telescope_detector : string)
    (observers measurers : PyVal) (comment : option string)
    (fs : FileSystem) (name : string) :
  type_is_list observers = true →
  type_is_list measurers = true →
  has_identification observations = true →
  (observations !! "mjd" = None ∧ name = "mjd")
  ∨ (∃ mjd isot,
       observations !! "mjd" = Some mjd
       ∧ Time_utc_isot mjd mjd_scale seconds_precision = Ok isot
       ∧ first_missing observations = Some name) →
  writeToADES observations file_out mjd_scale seconds_precision
    observatory_code submitter telescope_design telescope_aperture
    telescope_detector observers measurers comment fs
  = (Raise (KeyError name), fs).
Proof.
  intros Hobs Hmeas Hid Hmissing. rewrite writeToADES_run, Hid.
  destruct observers as [|?|os]; try discriminate.
  destruct measurers as [|?|ms]; try discriminate.
  rewrite writeADESHeader_layout. cbn [negb].
  destruct Hmissing as [[-> ->]|(mjd & isot & -> & -> & ->)]; reflexivity.
Qed.

(** X7. With accepted metadata, an identification column and an mjd
    column, an error of the time conversion is the error of the exporter,
    and no file is touched. *)
Theorem time_conversion_error_propagates
    (observations : Table) (file_out mjd_scale : string) (seconds_precision : Z)
    (observatory_code submitter telescope_design
     telescope_aperture telescope_detector : string)
    (observers measurers : PyVal) (comment : option string)
    (fs : FileSystem) (mjd : list cell) (e : PyExc) :
  type_is_list observers = true →
  type_is_list measurers = true →
  has_identification observations = true →
  observations !! "mjd" = Some mjd →
  Time_utc_isot mjd mjd_scale seconds_precision = Raise e →
  writeToADES observations file_out mjd_scale seconds_precision
    observatory_code submitter telescope_design telescope_aperture
    telescope_detector observers measurers comment fs = (Raise e, fs).
Proof.
  intros Hobs Hmeas Hid Hmjd Htime. rewrite writeToADES_run, Hid, Hmjd, Htime.
  destruct observers as [|?|os]; try discriminate.
  destruct measurers as [|?|ms]; try discriminate.
  now rewrite writeADESHeader_layout.
Qed.

Lemma DataFrame_rectangular (ades : Frame) (n : nat) :
  Forall (λ kv, length (snd kv) = n) ades → DataFrame ades = Ok ades.
Proof.
  destruct ades as [|[k c] rest]; [reflexivity|].
  intros Hall. apply Forall_cons in Hall as [Hc Hrest]. cbn [snd] in Hc.
  cbn [DataFrame].
  replace (forallb _ rest) with true; [reflexivity|].
  symmetry. apply forallb_forall. intros kv Hin.
  rewrite List.Forall_forall in Hrest. apply Nat.eqb_eq.
  rewrite (Hrest _ Hin). now rewrite Hc.
Qed.

Lemma first_missing_None (observations : Table) (name : string) :
  first_missing observations = None →
  In name required_after_time →
  ∃ values, observations !! name = Some values.
Proof.
  intros Hnone Hin.
  pose proof (List.find_none _ _ Hnone _ Hin) as Hhas.
  unfold has_column in Hhas. destruct (observations !! name); [eauto|discriminate].
Qed.

Lemma spec_frame_rectangular (observations : Table) (times : list cell) :
  first_missing observations = None →
  map_Forall (λ _ values, length values = length times) observations →
  Forall (λ kv, length (snd kv) = length times) (spec_frame observations times).
Proof.
  intros Hnone Hrect.
  assert (Hopt : ∀ name,
    Forall (λ kv, length (snd kv) = length times) (column_if_present observations name)).
  { intros name. unfold column_if_present.
    destruct (observations !! name) as [values|] eqn:Hname; [|constructor].
    constructor; [|constructor]. exact (Hrect _ _ Hname). }
  assert (Hreq : ∀ name, In name required_after_time →
    length (default [] (observations !! name)) = length times).
  { intros name Hin. destruct (first_missing_None _ _ Hnone Hin) as [values Hname].
    rewrite Hname. exact (Hrect _ _ Hname). }
  rewrite spec_frame_unfold.
  repeat first
    [ apply Forall_app_2; [apply Hopt|]
    | apply Hopt
    | apply List.Forall_cons;
        [first [reflexivity | apply Hreq; cbn; tauto]|] ].
Qed.

(** X8. With lists of observers and measurers, an identification column,
    mjd and the seven other required columns, times that convert, columns
    of one length and a path that can be opened, the exporter returns and
    the file holds the header, the column names and the rows. *)
Theorem export_succeeds
    (observations : Table) (file_out mjd_scale : string) (seconds_precision : Z)
    (observatory_code submitter telescope_design
     telescope_aperture telescope_detector : string)
    (observers measurers : list PyAtom) (comment : option string)
    (fs : FileSystem) (mjd : list cell) (isot : list string) :
  has_identification observations = true →
  observations !! "mjd" = Some mjd →
  Time_utc_isot mjd mjd_scale seconds_precision = Ok isot →
  first_missing observations = None →
  map_Forall (λ _ values, length values = length isot) observations →
  file_out ∉ denied fs →
  ∃ header,
    writeADESHeader observatory_code submitter telescope_design
      telescope_aperture telescope_detector (VList observers) (VList measurers)
      None None None comment = Ok header
    ∧ writeToADES observations file_out mjd_scale seconds_precision
        observatory_code submitter telescope_design telescope_aperture
        telescope_detector (VList observers) (VList measurers) comment fs
      = (Ok (),
         {| files :=
              <[file_out :=
                  join "" header
                  +:+ (join "|" (spec_column_order (has_column observations)) +:+ LF)
                  +:+ csv_text
                        (replace_nan
                           (spec_frame observations
                              (map (λ i, str_cell (i +:+ "Z")) isot)))]>
                (files fs);
            denied := denied fs |}).
Proof.
  intros Hid Hmjd Htime Hnone Hrect Hdenied.
  eexists. split; [apply writeADESHeader_layout|].
  rewrite writeToADES_run, writeADESHeader_layout, Hid, Hmjd, Htime, Hnone.
  cbn [negb]. cbn zeta.
  rewrite (DataFrame_rectangular _ (length isot)).
  - rewrite decide_False by assumption. now rewrite columns_spec_frame.
  - rewrite <- (length_map (λ i, str_cell (i +:+ "Z")) isot).
    apply spec_frame_rectangular; [assumption|]. now rewrite length_map.
Qed.

(** X9. If a run returns, the same call returns on every file system
    where the path can be opened, and leaves the same content at
    [file_out]: what the file held before is discarded, and nothing of the
    file system is read. *)
Theorem export_overwrites_previous_content
    (observations : Table) (file_out mjd_scale : string) (seconds_precision : Z)
    (observatory_code submitter telescope_design
     telescope_aperture telescope_detector : string)
    (observers measurers : PyVal) (comment : option string)
    (fs fs' fs0 : FileSystem) :
  writeToADES observations file_out mjd_scale seconds_precision
    observatory_code submitter telescope_design telescope_aperture
    telescope_detector observers measurers comment fs = (Ok (), fs') →
  file_out ∉ denied fs0 →
  ∃ fs0',
    writeToADES observations file_out mjd_scale seconds_precision
      observatory_code submitter telescope_design telescope_aperture
      telescope_detector observers measurers comment fs0 = (Ok (), fs0')
    ∧ files fs0' !! file_out = files fs' !! file_out.
Proof.
  intros Hrun Hfs0.
  destruct (writeToADES_returns _ _ _ _ _ _ _ _ _ _ _ _ _ _ Hrun)
    as (header & mjd & isot & Hheader & Hid & Hmjd & Htime & Hnone & _ & HDF & ->).
  cbn zeta in HDF. eexists. split.
  - rewrite writeToADES_run, Hheader, Hid, Hmjd, Htime, Hnone. cbn [negb]. cbn zeta.
    rewrite HDF, decide_False by assumption. reflexivity.
  - cbn [files]. now rewrite !lookup_insert_eq.
Qed.

(** X10. Exporting again to the same path leaves the file system as the
    first export left it: the rows are not appended a second time. *)
Theorem export_twice_is_export_once
    (observations : Table) (file_out mjd_scale : string) (seconds_precision : Z)
    (observatory_code submitter telescope_design
     telescope_aperture telescope_detector : string)
    (observers measurers : PyVal) (comment : option string)
    (fs fs' : FileSystem) :
  writeToADES observations file_out mjd_scale seconds_precision
    observatory_code submitter telescope_design telescope_aperture
    telescope_detector observers measurers comment fs = (Ok (), fs') →
  writeToADES observations file_out mjd_scale seconds_precision
    observatory_code submitter telescope_design telescope_aperture
    telescope_detector observers measurers comment fs' = (Ok (), fs').
Proof.
  intros Hrun.
  destruct (writeToADES_returns _ _ _ _ _ _ _ _ _ _ _ _ _ _ Hrun)
    as (header & mjd & isot & Hheader & Hid & Hmjd & Htime & Hnone & Hd & HDF & ->).
  cbn zeta in HDF.
  rewrite writeToADES_run, Hheader, Hid, Hmjd, Htime, Hnone. cbn [negb]. cbn zeta.
  rewrite HDF. cbn [files denied]. rewrite decide_False by assumption.
  now rewrite insert_insert_eq.
Qed.

Lemma spec_frame_agree (observations observations' : Table) (times : list cell) :
  Forall (λ name, observations !! name = observations' !! name) exported_columns →
  spec_frame observations times = spec_frame observations' times.
Proof.
  intros Hagree. rewrite List.Forall_forall in Hagree.
  rewrite !spec_frame_unfold. unfold column_if_present.
  rewrite !(Hagree "permID"), !(Hagree "provID"), !(Hagree "trkSub"),
    !(Hagree "ra"), !(Hagree "dec"), !(Hagree "rmsRA"), !(Hagree "rmsDec"),
    !(Hagree "mag"), !(Hagree "rmsMag"), !(Hagree "band"), !(Hagree "stn"),
    !(Hagree "mode"), !(Hagree "astCat"), !(Hagree "remarks")
    by (cbn; tauto).
  reflexivity.
Qed.

(** X11. Two tables that agree on the fifteen columns the exporter looks
    up give the same run: any other column of the table is ignored. *)
Theorem other_columns_are_ignored
    (observations observations' : Table)
    (file_out mjd_scale : string) (seconds_precision : Z)
    (observatory_code submitter telescope_design
     telescope_aperture telescope_detector : string)
    (observers measurers : PyVal) (comment : option string)
    (fs : FileSystem) :
  Forall (λ name, observations !! name = observations' !! name) exported_columns →
  writeToADES observations file_out mjd_scale seconds_precision
    observatory_code submitter telescope_design telescope_aperture
    telescope_detector observers measurers comment fs
  = writeToADES observations' file_out mjd_scale seconds_precision
      observatory_code submitter telescope_design telescope_aperture
      telescope_detector observers measurers comment fs.
Proof.
  intros Hagree. rewrite !writeToADES_run.
  pose proof Hagree as Hall. rewrite List.Forall_forall in Hall.
  assert (Hid : has_identification observations = has_identification observations').
  { unfold has_identification, has_column.
    now rewrite (Hall "permID"), (Hall "provID"), (Hall "trkSub") by (cbn; tauto). }
  assert (Hmissing : first_missing observations = first_missing observations').
  { unfold first_missing, required_after_time, has_column. cbn [List.find].
    now rewrite (Hall "ra"), (Hall "dec"), (Hall "mag"), (Hall "band"),
      (Hall "stn"), (Hall "mode"), (Hall "astCat") by (cbn; tauto). }
  rewrite Hid, Hmissing, (Hall "mjd") by (cbn; tauto).
  destruct (writeADESHeader _ _ _ _ _ _ _ _ _ _ _) as [header|e]; [|reflexivity].
  destruct (negb _); [reflexivity|].
  destruct (observations' !! "mjd") as [mjd|]; [|reflexivity].
  destruct (Time_utc_isot _ _ _) as [isot|e]; [|reflexivity].
  destruct (first_missing observations'); [reflexivity|]. cbn zeta.
  now rewrite (spec_frame_agree _ _ _ Hagree).
Qed.

End ExporterRun.

(** ** The lines of the written file *)

Lemma split_lines_line (text rest : string) :
  no_LF text = true →
  split_lines (line text +:+ rest) = text :: split_lines rest.
Proof.
  induction text as [|c text IH]; intros Hno; [reflexivity|].
  cbn [no_LF] in Hno. apply andb_true_iff in Hno as [Hc Htext].
  change (line (String c text) +:+ rest) with (String c (line text +:+ rest)).
  cbn [split_lines]. apply negb_true_iff in Hc. rewrite Hc, (IH Htext). reflexivity.
Qed.

Lemma join_cons (l : string) (ls : list string) :
  join "" (l :: ls) = l +:+ join "" ls.
Proof.
  destruct ls as [|l' ls]; [|reflexivity].
  cbn. induction l as [|c l IH]; [reflexivity|].
  change (String c l = String c (l +:+ "")). now rewrite <- IH.
Qed.

Lemma join_app_text (ls : list string) (l rest : string) :
  join "" (l :: ls) +:+ rest = l +:+ (join "" ls +:+ rest).
Proof. now rewrite join_cons, append_assoc. Qed.

Section FileLevel.
Context `{L : Libs}.

(** C10, as the code has it. When observatory code, submitter and
    telescope design hold no line feed, the file the exporter writes has,
    after its first [# observatory] line, the mpcCode line alone, after its
    first [# submitter] line the name line alone, and after its first
    [# telescope] line the aperture, design and detector lines: no name of
    an observatory or a telescope and no institution. *)
Theorem exported_file_omits_optional_names
    (observations : Table) (file_out mjd_scale : string) (seconds_precision : Z)
    (observatory_code submitter telescope_design
     telescope_aperture telescope_detector : string)
    (observers measurers : PyVal) (comment : option string)
    (fs fs' : FileSystem) :
  no_LF observatory_code = true →
  no_LF submitter = true →
  no_LF telescope_design = true →
  writeToADES observations file_out mjd_scale seconds_precision
    observatory_code submitter telescope_design telescope_aperture
    telescope_detector observers measurers comment fs = (Ok (), fs') →
  let lines := file_lines fs' file_out in
  section_lines "# observatory" lines = ["! mpcCode " +:+ observatory_code]
  ∧ section_lines "# submitter" lines = ["! name " +:+ submitter]
  ∧ section_lines "# telescope" lines
    = ["! aperture 8.4"; "! design " +:+ telescope_design; "! detector CCD"]
  ∧ Forall (λ l, is_key_line "name" l = false) (section_lines "# observatory" lines)
  ∧ Forall (λ l, is_key_line "institution" l = false)
      (section_lines "# submitter" lines)
  ∧ Forall (λ l, is_key_line "name" l = false) (section_lines "# telescope" lines).
Proof.
  intros Hcode Hsubmitter Hdesign Hrun.
  destruct (writeToADES_success _ _ _ _ _ _ _ _ _ _ _ _ _ _ Hrun)
    as (header & mjd & isot & Hheader & _ & _ & _ & _ & ->).
  destruct observers as [a|xs|os]; try discriminate.
  destruct measurers as [a|xs|ms]; try discriminate.
  rewrite writeADESHeader_layout in Hheader. injection Hheader as <-.
  cbn zeta. unfold file_lines. cbn [files]. rewrite lookup_insert_eq.
  unfold header_preamble. cbn [optional_line app].
  rewrite !join_app_text.
  rewrite !split_lines_line by (first [reflexivity | assumption]).
  repeat split; repeat constructor.
Qed.

End FileLevel.

(** ** What Python prints: doubles, cells and times *)









(** *** Fixed notation *)


(** *** Columns *)

Lemma lookup_map {A B : Type} (f : A → B) (l : list A) (i : nat) :
  map f l !! i = f <$> (l !! i).
Proof.
  revert i. induction l as [|a l IH]; intros [|i]; try reflexivity. apply IH.
Qed.





(** In a column of doubles one of which is missing, the others are written
    with [str]. *)
Lemma float_column_with_missing_field
    (column : list pycell) (i j : nat) (v : pycell) (x : float64) :
  column !! j = Some v →
  cell_is_missing v = true →
  column !! i = Some (CFloat x) →
  is_nan x = false →
  pandas_csv_values (map replaced column) !! i = Some (float_repr x).
Proof.
  intros Hj Hv Hi Hx.
  assert (Hcell : map replaced column !! j = Some (CStr " ")).
  { rewrite lookup_map, Hj. cbn. unfold replaced. now rewrite Hv. }
  unfold pandas_csv_values.
  destruct (forallb cell_is_float (map replaced column)) eqn:Hfloat.
  - rewrite forallb_forall in Hfloat.
    apply list_elem_of_lookup_2, list_elem_of_In in Hcell.
    discriminate (Hfloat _ Hcell).
  - rewrite !lookup_map, Hi.
    change (Some (object_field (replaced (CFloat x))) = Some (float_repr x)).
    unfold replaced. cbn [cell_is_missing]. rewrite Hx. cbn [object_field].
    now rewrite Hx.
Qed.

Section Rendering.
Variable utc_fields : list pycell → string → Z → result (list instant).


End Rendering.

(** *** Patterns *)















Section Times.
Variable utc_fields : list pycell → string → Z → result (list instant).


End Times.


(** ** The exporter on concrete tables *)

#[local] Existing Instance text_libs.

(** The file [demo_run] leaves. *)
Example demo_run_file :
  fst demo_run = Ok ()
  ∧ files (snd demo_run) !! "out.psv"
    = Some (join ""
        (map line
           ["# version=2017"; "# observatory"; "! mpcCode F51"; "# submitter";
            "! name J. Smith"; "# telescope"; "! aperture 8.4";
            "! design Reflector"; "! detector CCD"; "# observers"; "! name A. B";
            "# measurers"; "! name C. D";
            "trkSub|obsTime|ra|dec|mag|rmsMag|band|stn|mode|astCat";
            "A1B2C3|2020-05-31T12:00:00.000Z|10.0|-5.0|20.1| |g|F51|CCD|Gaia2";
            "A1B2C4|2020-05-31T12:10:00.000Z|10.1| |20.2|0.1|g|F51|CCD|Gaia2"])).
Proof. split; vm_compute; reflexivity. Qed.

Lemma missing_identification_raises_witness :
  (anonymous_table !! "permID" = None
   ∧ anonymous_table !! "provID" = None
   ∧ anonymous_table !! "trkSub" = None)
  ∧ let run :=
      writeToADES (L := text_libs) anonymous_table "out.psv" "utc" 9
        "F51" "J. Smith" "Reflector" "1.8" "CCD"
        (VList [AStr "A. B"]) (VList [AStr "C. D"]) None empty_fs in
    (∃ msg, run = (Raise (ValueError msg), empty_fs))
    ∧ (type_is_list (VList [AStr "A. B"]) = true →
       type_is_list (VList [AStr "C. D"]) = true →
       run = (Raise (ValueError missing_id_message), empty_fs)).
Proof.
  split; [repeat split; vm_compute; reflexivity|].
  apply (missing_identification_raises (L := text_libs) anonymous_table);
    vm_compute; reflexivity.
Defined.

Lemma output_column_order_witness :
  demo_run = (Ok (), snd demo_run)
  ∧ ∃ header mjd isot,
      demo_table !! "mjd" = Some mjd
      ∧ Time_utc_isot (Libs := text_libs) mjd "utc" 9 = Ok isot
      ∧ (let names := spec_column_order (has_column demo_table) in
         let values name :=
           if String.eqb name "obsTime" then map (λ i, str_cell (i +:+ "Z")) isot
           else default [] (demo_table !! name) in
         let field name i :=
           default ""
             (csv_values (map (λ v, if is_missing v then str_cell " " else v)
                              (values name))
              !! i) in
         files (snd demo_run) !! "out.psv"
         = Some (join "" header
                 +:+ (join "|" names +:+ LF)
                 +:+ join ""
                       (map (λ i, join "|" (map (λ name, field name i) names) +:+ LF)
                            (seq 0 (length isot))))).
Proof.
  split; [vm_compute; reflexivity|].
  apply (output_column_order (L := text_libs) demo_table "out.psv" "utc" 9
           "F51" "J. Smith" "Reflector" "1.8" "CCD"
           (VList [AStr "A. B"]) (VList [AStr "C. D"]) None empty_fs).
  vm_compute; reflexivity.
Defined.

Lemma exporter_omits_optional_names_witness :
  demo_run = (Ok (), snd demo_run)
  ∧ ∃ header times,
      writeADESHeader "F51" "J. Smith" "Reflector" "1.8" "CCD"
        (VList [AStr "A. B"]) (VList [AStr "C. D"]) None None None None = Ok header
      ∧ files (snd demo_run) !! "out.psv"
        = Some (join "" header
                +:+ (join "|" (spec_column_order (has_column demo_table)) +:+ LF)
                +:+ csv_text (replace_nan (spec_frame demo_table times)))
      ∧ section_lines (line "# observatory") header = [line ("! mpcCode " +:+ "F51")]
      ∧ section_lines (line "# submitter") header = [line ("! name " +:+ "J. Smith")]
      ∧ section_lines (line "# telescope") header
        = [line "! aperture 8.4"; line ("! design " +:+ "Reflector");
           line "! detector CCD"]
      ∧ Forall (λ l, is_key_line "name" l = false)
          (section_lines (line "# observatory") header)
      ∧ Forall (λ l, is_key_line "institution" l = false)
          (section_lines (line "# submitter") header)
      ∧ Forall (λ l, is_key_line "name" l = false)
          (section_lines (line "# telescope") header).
Proof.
  split; [vm_compute; reflexivity|].
  apply (exporter_omits_optional_names (L := text_libs) demo_table "out.psv" "utc" 9
           "F51" "J. Smith" "Reflector" "1.8" "CCD"
           (VList [AStr "A. B"]) (VList [AStr "C. D"]) None empty_fs).
  vm_compute; reflexivity.
Defined.

Lemma header_error_precedes_table_witness :
  writeADESHeader "F51" "J. Smith" "Reflector" "1.8" "CCD"
    (VAtom (AStr "A. B")) (VList [AStr "C. D"]) None None None None
  = Raise (ValueError "observers should be a list of strings.")
  ∧ writeToADES (L := text_libs) anonymous_table "out.psv" "utc" 9
      "F51" "J. Smith" "Reflector" "1.8" "CCD"
      (VAtom (AStr "A. B")) (VList [AStr "C. D"]) None empty_fs
    = (Raise (ValueError "observers should be a list of strings."), empty_fs).
Proof.
  split; [reflexivity|].
  apply (header_error_precedes_table (L := text_libs)). reflexivity.
Defined.

Lemma missing_column_raises_KeyError_witness :
  first_missing (L := text_libs) table_without_dec = Some "dec"
  ∧ writeToADES (L := text_libs) table_without_dec "out.psv" "utc" 9
      "F51" "J. Smith" "Reflector" "1.8" "CCD"
      (VList [AStr "A. B"]) (VList [AStr "C. D"]) None empty_fs
    = (Raise (KeyError "dec"), empty_fs).
Proof.
  split; [vm_compute; reflexivity|].
  apply (missing_column_raises_KeyError (L := text_libs) table_without_dec);
    [reflexivity | reflexivity | vm_compute; reflexivity |].
  right.
  exists [Some "2020-05-31T12:00:00.000"; Some "2020-05-31T12:10:00.000"],
    ["2020-05-31T12:00:00.000"; "2020-05-31T12:10:00.000"].
  repeat split; vm_compute; reflexivity.
Defined.

Lemma time_conversion_error_propagates_witness :
  writeToADES (L := strict_libs) untimed_table "out.psv" "utc" 9
    "F51" "J. Smith" "Reflector" "1.8" "CCD"
    (VList [AStr "A. B"]) (VList [AStr "C. D"]) None empty_fs
  = (Raise (LibraryError "Input values did not match the format class mjd"), empty_fs).
Proof.
  apply (time_conversion_error_propagates (L := strict_libs) untimed_table
           _ _ _ _ _ _ _ _ _ _ _ _ [Some "2020-05-31T12:00:00.000"; None]);
    vm_compute; reflexivity.
Defined.

Lemma export_succeeds_witness :
  ∃ header,
    writeADESHeader "F51" "J. Smith" "Reflector" "1.8" "CCD"
      (VList [AStr "A. B"]) (VList [AStr "C. D"]) None None None None = Ok header
    ∧ demo_run
      = (Ok (),
         {| files :=
              <["out.psv" :=
                  join "" header
                  +:+ (join "|" (spec_column_order (has_column (L := text_libs) demo_table))
                       +:+ LF)
                  +:+ csv_text (L := text_libs)
                        (replace_nan (L := text_libs)
                           (spec_frame (L := text_libs) demo_table
                              (map (λ i, Some (i +:+ "Z"))
                                 ["2020-05-31T12:00:00.000";
                                  "2020-05-31T12:10:00.000"])))]> ∅;
            denied := ∅ |}).
Proof.
  apply (export_succeeds (L := text_libs) demo_table "out.psv" "utc" 9
           "F51" "J. Smith" "Reflector" "1.8" "CCD" [AStr "A. B"] [AStr "C. D"]
           None empty_fs
           [Some "2020-05-31T12:00:00.000"; Some "2020-05-31T12:10:00.000"]).
  - vm_compute; reflexivity.
  - vm_compute; reflexivity.
  - vm_compute; reflexivity.
  - vm_compute; reflexivity.
  - unfold Table. cbn [cell text_libs].
    apply (bool_decide_unpack _). vm_compute. exact I.
  - apply not_elem_of_empty.
Defined.

(** A file system in which the output file is there already. *)
Lemma export_overwrites_previous_content_witness :
  demo_run = (Ok (), snd demo_run)
  ∧ ∃ fs0',
      writeToADES (L := text_libs) demo_table "out.psv" "utc" 9
        "F51" "J. Smith" "Reflector" "1.8" "CCD"
        (VList [AStr "A. B"]) (VList [AStr "C. D"]) None
        {| files := {["out.psv" := "an older export"]}; denied := ∅ |}
      = (Ok (), fs0')
      ∧ files fs0' !! "out.psv" = files (snd demo_run) !! "out.psv".
Proof.
  split; [vm_compute; reflexivity|].
  apply (export_overwrites_previous_content (L := text_libs) demo_table
           "out.psv" "utc" 9 "F51" "J. Smith" "Reflector" "1.8" "CCD"
           (VList [AStr "A. B"]) (VList [AStr "C. D"]) None empty_fs).
  - vm_compute; reflexivity.
  - apply not_elem_of_empty.
Defined.

Lemma export_twice_is_export_once_witness :
  demo_run = (Ok (), snd demo_run)
  ∧ writeToADES (L := text_libs) demo_table "out.psv" "utc" 9
      "F51" "J. Smith" "Reflector" "1.8" "CCD"
      (VList [AStr "A. B"]) (VList [AStr "C. D"]) None (snd demo_run)
    = (Ok (), snd demo_run).
Proof.
  split; [vm_compute; reflexivity|].
  apply (export_twice_is_export_once (L := text_libs) demo_table "out.psv" "utc" 9
           "F51" "J. Smith" "Reflector" "1.8" "CCD"
           (VList [AStr "A. B"]) (VList [AStr "C. D"]) None empty_fs).
  vm_compute; reflexivity.
Defined.

Lemma other_columns_are_ignored_witness :
  wider_table !! "obs_id" ≠ demo_table !! "obs_id"
  ∧ writeToADES (L := text_libs) wider_table "out.psv" "utc" 9
      "F51" "J. Smith" "Reflector" "1.8" "CCD"
      (VList [AStr "A. B"]) (VList [AStr "C. D"]) None empty_fs
    = demo_run.
Proof.
  split; [vm_compute; discriminate|].
  apply (other_columns_are_ignored (L := text_libs) wider_table demo_table).
  repeat constructor.
Defined.

(** C10, as the specification words it, fails: an observatory code of two
    lines puts a name line into the observatory section of the file. *)
Lemma line_feed_in_code_adds_name_line :
  fst two_line_run = Ok ()
  ∧ section_lines "# observatory" (file_lines (snd two_line_run) "out.psv")
    = ["! mpcCode F51"; "! name Pan-STARRS 1"]
  ∧ ¬ Forall (λ l, is_key_line "name" l = false)
        (section_lines "# observatory" (file_lines (snd two_line_run) "out.psv")).
Proof.
  split; [vm_compute; reflexivity|].
  assert (Hsection :
    section_lines "# observatory" (file_lines (snd two_line_run) "out.psv")
    = ["! mpcCode F51"; "! name Pan-STARRS 1"]) by (vm_compute; reflexivity).
  split; [exact Hsection|].
  rewrite Hsection. intros Hall.
  apply Forall_cons in Hall as [_ Hall]. apply Forall_cons in Hall as [Hname _].
  discriminate Hname.
Qed.

Lemma exported_file_omits_optional_names_witness :
  demo_run = (Ok (), snd demo_run)
  ∧ let lines := file_lines (snd demo_run) "out.psv" in
    section_lines "# observatory" lines = ["! mpcCode " +:+ "F51"]
    ∧ section_lines "# submitter" lines = ["! name " +:+ "J. Smith"]
    ∧ section_lines "# telescope" lines
      = ["! aperture 8.4"; "! design " +:+ "Reflector"; "! detector CCD"]
    ∧ Forall (λ l, is_key_line "name" l = false) (section_lines "# observatory" lines)
    ∧ Forall (λ l, is_key_line "institution" l = false)
        (section_lines "# submitter" lines)
    ∧ Forall (λ l, is_key_line "name" l = false) (section_lines "# telescope" lines).
Proof.
  split; [vm_compute; reflexivity|].
  apply (exported_file_omits_optional_names (L := text_libs) demo_table "out.psv" "utc" 9
           "F51" "J. Smith" "Reflector" "1.8" "CCD"
           (VList [AStr "A. B"]) (VList [AStr "C. D"]) None empty_fs);
    vm_compute; reflexivity.
Defined.

(** The file [float_run] leaves: the doubles of ra, dec and mag have
    sixteen digits, the double of rmsMag beside the missing one has not. *)
Example float_run_file :
  fst float_run = Ok ()
  ∧ file_lines (snd float_run) "out.psv"
    = ["# version=2017"; "# observatory"; "! mpcCode F51"; "# submitter";
       "! name J. Smith"; "# telescope"; "! aperture 8.4"; "! design Reflector";
       "! detector CCD"; "# observers"; "! name A. B"; "# measurers";
       "! name C. D";
       "trkSub|obsTime|ra|dec|mag|rmsMag|band|stn|mode|astCat";
       "A1B2C3|2020-05-31T12:00:00.000000000Z|10.0000000000000000|-5.0000000000000000|20.1000000000000014| |g|F51|CCD|Gaia2";
       "A1B2C4|2020-05-31T12:00:00.000000000Z|10.0999999999999996|-5.5000000000000000|20.1999999999999993|0.1|g|F51|CCD| ";
       ""].
Proof. split; vm_compute; reflexivity. Qed.

(** The double nearest to 123.456789012345 in fixed notation. *)
Example format_16f_sample :
  format_16f (FFinite false 8687499203005545 (-46)) = "123.4567890123449985"
  ∧ float_repr (FFinite false 8687499203005545 (-46)) = "123.456789012345".
Proof. split; vm_compute; reflexivity. Qed.




(** The obsTime of [float_run], checked against the pattern. *)
Example obsTime_sample :
  isot_format 9 {| year := 2020; month := 5; day := 31; hour := 12;
                   minute := 0; second := 0; fracsec := 0 |} +:+ "Z"
  = "2020-05-31T12:00:00.000000000Z"
  ∧ matches (obsTime_pattern 9) "2020-05-31T12:00:00.000000000Z" = true
  ∧ matches (obsTime_pattern 9) "2020-05-31T12:00:00.000000000+00:00" = false
  ∧ matches (obsTime_pattern 0) "2020-05-31T12:00:00Z" = true.
Proof. repeat split; vm_compute; reflexivity. Qed.
